(** * Lookout application-key validator: model and verified properties

    A shallow embedding of [lookout_validator_ssl.py]: the class
    [LookoutAPIValidator] (its constructor, [get_access_token],
    [test_api_access], [validate_key]), [load_keys_from_file] and the
    exit-code logic of [main].

    Conventions of the embedding.
    - A Python [str] is a Rocq [string]; one character of the Rocq string
      stands for one code point of the Python string (code points up to
      U+00FF).
    - A Python [dict] with string keys is a [gmap string pyval]; parsed
      JSON bodies and the result dictionary of [validate_key] are such
      dictionaries.
    - A Python exception is a value of [exn]; code that may raise lives in
      the monad [res].  [try ... except C] is a handler that catches the
      exceptions that are instances of [C] and lets the others propagate.
    - The outside world (HTTP endpoints, the clock, the file system) is a
      record of functions; the code's requests are passed to it as data.
    - Console output ([print]) and [time.sleep] are not part of the model. *)

From Stdlib Require Import ZArith Ascii String Numbers.DecimalString SpecFloat.
From stdpp Require Import gmap strings list fin_maps.

#[local] Set Warnings "-register-all".
#[local] Open Scope Z_scope.

(** ** Python values and exceptions *)

Inductive pyval : Type :=
| VNone
| VBool (b : bool)
| VInt (n : Z)
| VFloat (x : spec_float)
| VStr (s : string)
| VList (l : list pyval)
| VDict (d : gmap string pyval).

(** The exception classes the program meets.  All of them are subclasses
    of [Exception]; [RequestException] stands for
    [requests.exceptions.RequestException] and every subclass of it, and
    [OtherException] for any class not named here. *)
Inductive exn : Type :=
| RequestException (msg : string)
| KeyError (key : string)
| AttributeError (msg : string)
| TypeError (msg : string)
| FileNotFoundError (msg : string)
| OtherException (msg : string).

Inductive res (A : Type) : Type :=
| Ok (a : A)
| Raise (e : exn).
Arguments Ok {A} a.
Arguments Raise {A} e.

#[global] Instance res_ret : MRet res := fun A a => Ok a.
#[global] Instance res_bind : MBind res := fun A B f m =>
  match m with
  | Ok a => f a
  | Raise e => Raise e
  end.

(** [try: body except requests.exceptions.RequestException as e: handler] *)
Definition try_except_RequestException {A} (body : res A) (handler : string -> res A) : res A :=
  match body with
  | Raise (RequestException msg) => handler msg
  | other => other
  end.

(** [try: body except Exception as e: handler].  Every exception of [exn]
    is an instance of [Exception]. *)
Definition try_except_Exception {A} (body : res A) (handler : exn -> res A) : res A :=
  match body with
  | Raise e => handler e
  | other => other
  end.

(** ** Strings *)

(** [str(n)] for an [int]. *)
Definition str_int (n : Z) : string := NilZero.string_of_int (Z.to_int n).

(** [c.isspace()] on the code points below 256: TAB, LF, VT, FF, CR,
    FS, GS, RS, US, SPACE, NEL and NBSP. *)
Definition isspace (c : ascii) : bool :=
  let n := nat_of_ascii c in
  ((9 <=? n) && (n <=? 13) || (28 <=? n) && (n <=? 32) || (n =? 133) || (n =? 160))%nat.

Fixpoint lstrip (s : string) : string :=
  match s with
  | EmptyString => EmptyString
  | String c r => if isspace c then lstrip r else s
  end.

Fixpoint rstrip_by (p : ascii -> bool) (s : string) : string :=
  match s with
  | EmptyString => EmptyString
  | String c r =>
      match rstrip_by p r with
      | EmptyString => if p c then EmptyString else String c EmptyString
      | r' => String c r'
      end
  end.

(** [s.strip()] *)
Definition strip (s : string) : string := rstrip_by isspace (lstrip s).

(** [s.rstrip('/')] *)
Definition rstrip_slash (s : string) : string :=
  rstrip_by (fun c => Ascii.eqb c "/"%char) s.

(** [s.startswith(p)] *)
Definition startswith (s p : string) : bool := String.prefix p s.

(** [s[:n]] for [n >= 0] *)
Definition slice_to (n : nat) (s : string) : string := String.substring 0 n s.

(** Truth value of a [str]: non-empty. *)
Definition str_truthy (s : string) : bool :=
  match s with
  | EmptyString => false
  | String _ _ => true
  end.

(** Truth value of a [list]: non-empty. *)
Definition list_truthy {A} (l : list A) : bool :=
  match l with
  | [] => false
  | _ :: _ => true
  end.

(** Truth value of an optional [str] ([None] or a string). *)
Definition opt_truthy (o : option string) : bool :=
  match o with
  | None => false
  | Some s => str_truthy s
  end.

(** The lines a text file yields when iterated (universal newlines: LF,
    CR and CR LF each end a line, and the line keeps a final LF). *)
Fixpoint readlines_from (cur s : string) : list string :=
  match s with
  | EmptyString => if str_truthy cur then [cur] else []
  | String c r =>
      if Ascii.eqb c "010"%char then (cur +:+ String "010"%char EmptyString) :: readlines_from EmptyString r
      else if Ascii.eqb c "013"%char then
        match r with
        | String c' r' =>
            if Ascii.eqb c' "010"%char
            then (cur +:+ String "010"%char EmptyString) :: readlines_from EmptyString r'
            else (cur +:+ String "010"%char EmptyString) :: readlines_from EmptyString r
        | EmptyString => [cur +:+ String "010"%char EmptyString]
        end
      else readlines_from (cur +:+ String c EmptyString) r
  end.

Definition readlines (content : string) : list string := readlines_from EmptyString content.

(** ** Dictionaries and values *)

Definition type_name (v : pyval) : string :=
  match v with
  | VNone => "NoneType"
  | VBool _ => "bool"
  | VInt _ => "int"
  | VFloat _ => "float"
  | VStr _ => "str"
  | VList _ => "list"
  | VDict _ => "dict"
  end.

(** A dict display [{k1: v1, ..., kn: vn}]: a later item overrides an
    earlier one with the same key. *)
Definition pydict (items : list (string * pyval)) : gmap string pyval :=
  foldl (fun d kv => <[kv.1 := kv.2]> d) ∅ items.

(** [v.get(k, default)]: only a dict has a [get]. *)
Definition py_get (v : pyval) (k : string) (dflt : pyval) : res pyval :=
  match v with
  | VDict d => Ok (default dflt (d !! k))
  | other => Raise (AttributeError ("'" +:+ type_name other +:+ "' object has no attribute 'get'"))
  end.

(** [v[k]] for a string [k]. *)
Definition py_getitem (v : pyval) (k : string) : res pyval :=
  match v with
  | VDict d =>
      match d !! k with
      | Some x => Ok x
      | None => Raise (KeyError k)
      end
  | VStr _ => Raise (TypeError "string indices must be integers")
  | VList _ => Raise (TypeError "list indices must be integers or slices, not str")
  | other => Raise (TypeError ("'" +:+ type_name other +:+ "' object is not subscriptable"))
  end.

(** [v.append(x)]: only a list has an [append]. *)
Definition py_append (v : pyval) (x : pyval) : res pyval :=
  match v with
  | VList l => Ok (VList (l ++ [x]))
  | other => Raise (AttributeError ("'" +:+ type_name other +:+ "' object has no attribute 'append'"))
  end.

(** Truth value of a Python value, as [if v] and [all] test it. *)
Definition truthy (v : pyval) : bool :=
  match v with
  | VNone => false
  | VBool b => b
  | VInt n => negb (n =? 0)
  | VFloat (S754_zero _) => false
  | VFloat _ => true
  | VStr s => str_truthy s
  | VList l => list_truthy l
  | VDict d => negb (bool_decide (size d = 0%nat))
  end.

(** ** The outside world *)

(** The arguments of one [requests.post] or [requests.get] call. *)
Record Request : Type := {
  req_url : string;
  req_headers : list (string * string);
  req_data : list (string * string);
  req_params : list (string * pyval);
  req_timeout : Z;
  req_verify : bool
}.

(** What the program reads of a [requests.Response]: [status_code],
    [text] and the outcome of calling [json()]. *)
Record Response : Type := {
  status_code : Z;
  text : string;
  json : res pyval
}.

(** The environment of one call of [validate_key]: the two HTTP verbs
    and the value of [datetime.now().isoformat()]. *)
Record World : Type := {
  requests_post : Request -> res Response;
  requests_get : Request -> res Response;
  now_isoformat : string
}.

Record FileSystem : Type := {
  read_text : string -> res string;
  write_json : string -> list (gmap string pyval) -> res unit
}.

(** ** class LookoutAPIValidator *)

Record LookoutAPIValidator : Type := {
  base_url : string;
  token_endpoint : string;
  test_endpoint : string;
  skip_ssl_verify : bool
}.

(** [LookoutAPIValidator.__init__] *)
Definition init (url : string) (skip : bool) : LookoutAPIValidator :=
  let base := rstrip_slash url in
  {| base_url := base;
     token_endpoint := base +:+ "/oauth2/token";
     test_endpoint := base +:+ "/mra/api/v2/devices";
     skip_ssl_verify := skip |}.

Section Validator.

(** [str(v)] of a float, a list or a dict is left to the interpreter. *)
Variable str_other : pyval -> string.

(** [str(v)], as an f-string formats a value. *)
Definition py_str (v : pyval) : string :=
  match v with
  | VNone => "None"
  | VBool true => "True"
  | VBool false => "False"
  | VInt n => str_int n
  | VStr s => s
  | other => str_other other
  end.

Definition token_request (self : LookoutAPIValidator) (application_key : string)
    (scope : option string) : Request :=
  let headers :=
    [("Accept", "application/json");
     ("Authorization", "Bearer " +:+ application_key);
     ("Content-Type", "application/x-www-form-urlencoded")] in
  let data := [("grant_type", "client_credentials")] in
  let data := if opt_truthy scope then data ++ [("scope", default "" scope)] else data in
  {| req_url := token_endpoint self;
     req_headers := headers;
     req_data := data;
     req_params := [];
     req_timeout := 30;
     req_verify := negb (skip_ssl_verify self) |}.

Definition get_access_token (self : LookoutAPIValidator) (w : World)
    (application_key : string) (scope : option string) : res (bool * pyval) :=
  try_except_RequestException
    (response ← requests_post w (token_request self application_key scope);
     if status_code response =? 200 then
       data ← json response;
       mret (true, data)
     else
       mret (false, VDict (pydict
         [("error", VStr ("HTTP " +:+ str_int (status_code response)));
          ("message", VStr (text response));
          ("status_code", VInt (status_code response))])))
    (fun e => mret (false, VDict (pydict
         [("error", VStr "Network error"); ("message", VStr e)]))).

Definition probe_request (self : LookoutAPIValidator) (access_token : pyval) : Request :=
  let headers :=
    [("Accept", "application/json");
     ("Authorization", "Bearer " +:+ py_str access_token)] in
  let params := [("limit", VInt 1)] in
  {| req_url := test_endpoint self;
     req_headers := headers;
     req_data := [];
     req_params := params;
     req_timeout := 30;
     req_verify := negb (skip_ssl_verify self) |}.

Definition test_api_access (self : LookoutAPIValidator) (w : World)
    (access_token : pyval) : res (bool * pyval) :=
  try_except_RequestException
    (response ← requests_get w (probe_request self access_token);
     if status_code response =? 200 then
       data ← json response;
       count ← py_get data "count" (VInt 0);
       mret (true, VDict (pydict
         [("device_count", count); ("api_accessible", VBool true)]))
     else
       mret (false, VDict (pydict
         [("error", VStr ("HTTP " +:+ str_int (status_code response)));
          ("message", VStr (text response));
          ("status_code", VInt (status_code response))])))
    (fun e => mret (false, VDict (pydict
         [("error", VStr "Network error"); ("message", VStr e)]))).

(** The value stored under ['application_key']:
    [application_key[:20] + '...' if len(application_key) > 20 else application_key] *)
Definition shown_key (application_key : string) : string :=
  if (20 <? String.length application_key)%nat
  then slice_to 20 application_key +:+ "..."
  else application_key.

(** The dictionary [validate_key] starts from. *)
Definition skeleton (self : LookoutAPIValidator) (w : World) (application_key : string)
    : gmap string pyval :=
  pydict
    [("application_key", VStr (shown_key application_key));
     ("timestamp", VStr (now_isoformat w));
     ("valid", VBool false);
     ("token_obtained", VBool false);
     ("api_accessible", VBool false);
     ("ssl_verify_skipped", VBool (skip_ssl_verify self));
     ("errors", VList [])].

(** [result['errors'].append(msg)]: the list stored in the dictionary is
    extended in place. *)
Definition errors_append (result : gmap string pyval) (msg : string)
    : res (gmap string pyval) :=
  errors ← py_getitem (VDict result) "errors";
  errors ← py_append errors (VStr msg);
  mret (<["errors" := errors]> result).

Definition validate_key (self : LookoutAPIValidator) (w : World)
    (application_key : string) (scope : option string) : res (gmap string pyval) :=
  let result := skeleton self w application_key in
  '(token_success, token_data) ← get_access_token self w application_key scope;
  if negb token_success then
    error ← py_get token_data "error" (VStr "Unknown error");
    result ← errors_append result ("Token request failed: " +:+ py_str error);
    mret result
  else
    let result := <["token_obtained" := VBool true]> result in
    token_type ← py_get token_data "token_type" VNone;
    expires_in ← py_get token_data "expires_in" VNone;
    expires_at ← py_get token_data "expires_at" VNone;
    granted ← py_get token_data "scope" (VStr "");
    let result := <["token_info" := VDict (pydict
      [("token_type", token_type);
       ("expires_in", expires_in);
       ("expires_at", expires_at);
       ("scope", granted)])]> result in
    access_token ← py_getitem token_data "access_token";
    '(api_success, api_data) ← test_api_access self w access_token;
    if negb api_success then
      error ← py_get api_data "error" (VStr "Unknown error");
      result ← errors_append result ("API access failed: " +:+ py_str error);
      mret result
    else
      let result := <["api_accessible" := VBool true]> result in
      let result := <["api_info" := api_data]> result in
      let result := <["valid" := VBool true]> result in
      mret result.

End Validator.

(** ** load_keys_from_file *)

(** [[line.strip() for line in f
      if line.strip() and not line.strip().startswith('#')]] *)
Definition keys_of_lines (f : list string) : list string :=
  flat_map
    (fun line =>
       if str_truthy (strip line) && negb (startswith (strip line) "#")
       then [strip line]
       else [])
    f.

(** Both handlers ([FileNotFoundError] and [Exception]) return the empty
    list. *)
Definition load_keys_from_file (fs : FileSystem) (filename : string) : list string :=
  match read_text fs filename with
  | Ok content => keys_of_lines (readlines content)
  | Raise _ => []
  end.

(** ** main *)

(** The namespace [parser.parse_args()] returns.  The model of [main]
    starts from it: a command line that [parse_args] refuses ends the
    process inside [parse_args], before any of the code below. *)
Record Args : Type := {
  args_key : option string;
  args_key_arg : option string;
  args_file : option string;
  args_scope : option string;
  args_url : string;
  args_output : option string;
  args_verbose : bool;
  args_skip_ssl_verify : bool
}.

(** [a or b] on optional strings. *)
Definition opt_or (a b : option string) : option string :=
  if opt_truthy a then a else b.

Section Main.

Variable str_other : pyval -> string.

(** The loop [for i, key in enumerate(keys_to_validate, 1)]: the [i]-th
    validation runs in the world [world i]; an exception of
    [validate_key] ends the loop and leaves [main]. *)
Fixpoint validate_each (validator : LookoutAPIValidator) (world : nat -> World)
    (scope : option string) (i : nat) (keys : list string)
    : res (list (gmap string pyval)) :=
  match keys with
  | [] => mret []
  | key :: rest =>
      result ← validate_key str_other validator (world i) key scope;
      results ← validate_each validator world scope (S i) rest;
      mret (result :: results)
  end.

(** [all(r['valid'] for r in results)] *)
Fixpoint all_valid (results : list (gmap string pyval)) : res bool :=
  match results with
  | [] => mret true
  | r :: rest =>
      v ← py_getitem (VDict r) "valid";
      if truthy v then all_valid rest else mret false
  end.

(** [main] from the creation of the validator on.  The value is the exit
    code of [sys.exit], or 0 when [main] returns. *)
Definition run (fs : FileSystem) (world : nat -> World) (args : Args)
    (keys_to_validate : list string) : res Z :=
  let validator := init (args_url args) (args_skip_ssl_verify args) in
  results ← validate_each validator world (args_scope args) 1%nat keys_to_validate;
  _ ← (if opt_truthy (args_output args) then
         try_except_Exception
           (write_json fs (default "" (args_output args)) results)
           (fun _ => mret tt)
       else mret tt);
  ok ← all_valid results;
  if negb ok then mret 1 else mret 0.

(** [sys.exit] is only called at the top level of [main], outside every
    [try]: it is modelled as [main] ending with that code. *)
Definition main (fs : FileSystem) (world : nat -> World) (args : Args) : res Z :=
  if opt_truthy (args_file args) then
    let keys_to_validate := load_keys_from_file fs (default "" (args_file args)) in
    if negb (list_truthy keys_to_validate) then mret 1
    else run fs world args keys_to_validate
  else
    let key := opt_or (args_key args) (args_key_arg args) in
    if negb (opt_truthy key) then mret 1
    else run fs world args [default "" key].

End Main.

(** The exit status of the process: the code [main] ended with, and 1
    when an exception left [main] (the interpreter prints the traceback). *)
Definition exit_code (outcome : res Z) : Z :=
  match outcome with
  | Ok code => code
  | Raise _ => 1
  end.

(** ** Vocabulary of the properties *)

(** The dictionary both request functions return on a status other than
    200, and the one they return on a [RequestException]. *)
Definition http_error (response : Response) : pyval :=
  VDict (pydict
    [("error", VStr ("HTTP " +:+ str_int (status_code response)));
     ("message", VStr (text response));
     ("status_code", VInt (status_code response))]).

Definition network_error (msg : string) : pyval :=
  VDict (pydict [("error", VStr "Network error"); ("message", VStr msg)]).

(** The second component of a failed request. *)
Definition is_error_info (data : pyval) : Prop :=
  (exists response, data = http_error response) \/ (exists msg, data = network_error msg).

(** The token metadata [validate_key] copies out of a token payload. *)
Definition token_info_of (token_data : gmap string pyval) : pyval :=
  VDict (pydict
    [("token_type", default VNone (token_data !! "token_type"));
     ("expires_in", default VNone (token_data !! "expires_in"));
     ("expires_at", default VNone (token_data !! "expires_at"));
     ("scope", default (VStr "") (token_data !! "scope"))]).

(** The probe metadata [test_api_access] builds from a probe body. *)
Definition api_info_of (body : gmap string pyval) : pyval :=
  VDict (pydict
    [("device_count", default (VInt 0) (body !! "count"));
     ("api_accessible", VBool true)]).

(** The three dictionaries [validate_key] can return, one per exit of
    its body. *)
Definition token_failed (skel : gmap string pyval) (reason : string) : gmap string pyval :=
  <["errors" := VList [VStr ("Token request failed: " +:+ reason)]]> skel.

Definition probe_failed (skel : gmap string pyval) (token_info : pyval) (reason : string)
    : gmap string pyval :=
  <["errors" := VList [VStr ("API access failed: " +:+ reason)]]>
    (<["token_info" := token_info]> (<["token_obtained" := VBool true]> skel)).

Definition both_passed (skel : gmap string pyval) (token_info api_info : pyval)
    : gmap string pyval :=
  <["valid" := VBool true]>
    (<["api_info" := api_info]>
      (<["api_accessible" := VBool true]>
        (<["token_info" := token_info]> (<["token_obtained" := VBool true]> skel)))).

(** A result with [valid] set. *)
Definition is_valid (r : gmap string pyval) : Prop := r !! "valid" = Some (VBool true).

(** The first [n] characters of a string. *)
Definition first_chars (n : nat) (s : string) : string :=
  string_of_list_ascii (take n (list_ascii_of_string s)).

(** A blank line: nothing but whitespace (the line end included). *)
Definition is_blank (line : string) : bool :=
  forallb isspace (list_ascii_of_string line).

(** A comment line: its first character that is not whitespace is [#]. *)
Definition is_comment (line : string) : bool := startswith (lstrip line) "#".

(** The key list as the words of the specification give it: blank lines
    and lines that start with [#] are dropped, the others are stripped. *)
Definition keys_as_specified (content : string) : list string :=
  map strip
    (List.filter (fun line => negb (is_blank line) && negb (startswith line "#"))
       (readlines content)).

(** The same with comment lines recognised after leading whitespace. *)
Definition keys_after_lstrip (content : string) : list string :=
  map strip
    (List.filter (fun line => negb (is_blank line) && negb (is_comment line))
       (readlines content)).

(** The keys a command line resolves to: those of the file when a file
    is named, otherwise the one key given, if any. *)
Definition resolved_keys (fs : FileSystem) (args : Args) : list string :=
  if opt_truthy (args_file args) then load_keys_from_file fs (default "" (args_file args))
  else
    match opt_or (args_key args) (args_key_arg args) with
    | Some key => if str_truthy key then [key] else []
    | None => []
    end.

(** ** Sample environments *)

Module Sample.

Definition validator : LookoutAPIValidator := init "https://api.lookout.com/" false.

Definition no_body : res pyval := Raise (OtherException "Expecting value").

Definition reply (status : Z) (body : string) (parsed : res pyval) : Response :=
  {| status_code := status; text := body; json := parsed |}.

Definition token_payload : gmap string pyval :=
  pydict [("access_token", VStr "tok-1"); ("token_type", VStr "Bearer"); ("expires_in", VInt 3600)].

Definition probe_payload : gmap string pyval :=
  pydict [("count", VInt 7); ("devices", VList [])].

Definition clock : string := "2024-05-01T10:00:00".

(** The token endpoint refuses the key. *)
Definition refused : World :=
  {| requests_post := fun _ => Ok (reply 401 "unauthorized" no_body);
     requests_get := fun _ => Ok (reply 200 "{}" (Ok (VDict probe_payload)));
     now_isoformat := clock |}.

(** The token endpoint grants a token, the probe is denied. *)
Definition denied : World :=
  {| requests_post := fun _ => Ok (reply 200 "{}" (Ok (VDict token_payload)));
     requests_get := fun _ => Ok (reply 403 "forbidden" no_body);
     now_isoformat := clock |}.

(** Both requests succeed. *)
Definition granted : World :=
  {| requests_post := fun _ => Ok (reply 200 "{}" (Ok (VDict token_payload)));
     requests_get := fun _ => Ok (reply 200 "{}" (Ok (VDict probe_payload)));
     now_isoformat := clock |}.

(** The token endpoint answers 200 with a body that has no
    [access_token]. *)
Definition tokenless : World :=
  {| requests_post := fun _ =>
       Ok (reply 200 "{}" (Ok (VDict (pydict [("token_type", VStr "Bearer")]))));
     requests_get := fun _ => Ok (reply 200 "{}" (Ok (VDict probe_payload)));
     now_isoformat := clock |}.

Definition str_other (v : pyval) : string := "".

Definition long_key : string := "0123456789abcdefghijKLMNOP".

(** A key file with a comment line that is indented. *)
Definition indented_comment : string := "  #x".

Definition key_file : string := "# keys
alpha
   
  beta  
  # not a key
".

Definition disk (content : string) : FileSystem :=
  {| read_text := fun _ => Ok content;
     write_json := fun _ _ => Raise (OtherException "Permission denied") |}.

Definition cli (file key : option string) : Args :=
  {| args_key := key; args_key_arg := None; args_file := file; args_scope := None;
     args_url := "https://api.lookout.com"; args_output := Some "out.json";
     args_verbose := false; args_skip_ssl_verify := false |}.

End Sample.

(** ** The summary of main *)

(** [valid_count = sum(1 for r in results if r['valid'])] *)
Fixpoint valid_count (results : list (gmap string pyval)) : res Z :=
  match results with
  | [] => mret 0
  | r :: rest =>
      v ← py_getitem (VDict r) "valid";
      n ← valid_count rest;
      mret (if truthy v then 1 + n else n)
  end.

(** ** Further vocabulary *)

(** A world with another [requests.get]. *)
Definition with_get (w : World) (get : Request -> res Response) : World :=
  {| requests_post := requests_post w;
     requests_get := get;
     now_isoformat := now_isoformat w |}.

(** A key file written one key per line, each line ended by LF. *)
Definition unlines (keys : list string) : string :=
  foldr (fun key rest => key +:+ String "010"%char rest) EmptyString keys.

(** A string without CR and LF. *)
Definition one_line (s : string) : bool :=
  forallb (fun c => negb (Ascii.eqb c "010"%char) && negb (Ascii.eqb c "013"%char))
    (list_ascii_of_string s).

(** What the comprehension of [load_keys_from_file] keeps unchanged: a
    key that is not empty, is not a comment and has no whitespace around
    it. *)
Definition clean_key (key : string) : bool :=
  str_truthy key && negb (startswith key "#") && bool_decide (strip key = key).

Definition is_request_exception (e : exn) : bool :=
  match e with
  | RequestException _ => true
  | _ => false
  end.

(** ** Further sample environments *)

Module Cases.

(** No route to the token endpoint. *)
Definition offline : World :=
  {| requests_post := fun _ => Raise (RequestException "Connection refused");
     requests_get := fun _ => Ok (Sample.reply 200 "{}" (Ok (VDict Sample.probe_payload)));
     now_isoformat := Sample.clock |}.

(** A token is granted, then the connection is lost. *)
Definition cut_off : World :=
  {| requests_post := fun _ => Ok (Sample.reply 200 "{}" (Ok (VDict Sample.token_payload)));
     requests_get := fun _ => Raise (RequestException "Read timed out");
     now_isoformat := Sample.clock |}.

(** The probe answers 200 with a JSON array. *)
Definition listing : World :=
  {| requests_post := fun _ => Ok (Sample.reply 200 "{}" (Ok (VDict Sample.token_payload)));
     requests_get := fun _ => Ok (Sample.reply 200 "[]" (Ok (VList [])));
     now_isoformat := Sample.clock |}.

(** The token endpoint answers 200 with the JSON value [null]. *)
Definition null_token : World :=
  {| requests_post := fun _ => Ok (Sample.reply 200 "null" (Ok VNone));
     requests_get := fun _ => Ok (Sample.reply 200 "{}" (Ok (VDict Sample.probe_payload)));
     now_isoformat := Sample.clock |}.

(** The HTTP library fails with an exception of its caller's making. *)
Definition broken : World :=
  {| requests_post := fun _ => Raise (OtherException "Invalid URL");
     requests_get := fun _ => Ok (Sample.reply 200 "{}" (Ok (VDict Sample.probe_payload)));
     now_isoformat := Sample.clock |}.

(** A disk without the key file. *)
Definition empty_disk : FileSystem :=
  {| read_text := fun name => Raise (FileNotFoundError name);
     write_json := fun _ _ => Ok tt |}.

(** The first key is served, the second meets a token endpoint that
    leaves [access_token] out. *)
Definition second_tokenless (i : nat) : World :=
  match i with
  | 1%nat => Sample.granted
  | _ => Sample.tokenless
  end.

(** The first key is served, the second is refused. *)
Definition second_refused (i : nat) : World :=
  match i with
  | 1%nat => Sample.granted
  | _ => Sample.refused
  end.

Definition two_keys : string := "alpha
beta
".

(** Both endpoints answer 200, but the body of the probe is no JSON:
    [json()] raises the [JSONDecodeError] of [requests], a
    [RequestException]. *)
Definition garbled : World :=
  {| requests_post := fun _ => Ok (Sample.reply 200 "{}" (Ok (VDict Sample.token_payload)));
     requests_get := fun _ =>
       Ok (Sample.reply 200 "<html>" (Raise (RequestException "Expecting value")));
     now_isoformat := Sample.clock |}.


End Cases.

(** * Properties

    ** The two requests *)

Section RequestFacts.

Variable str_other : pyval -> string.
Variables (self : LookoutAPIValidator) (w : World).

Lemma get_access_token_status (key : string) (scope : option string) (response : Response) :
  requests_post w (token_request self key scope) = Ok response ->
  status_code response <> 200 ->
  get_access_token self w key scope = Ok (false, http_error response).
Proof.
  intros Hpost Hstatus. unfold get_access_token. rewrite Hpost. simpl.
  destruct (Z.eqb_spec (status_code response) 200) as [E | _]; [contradiction | reflexivity].
Qed.

Lemma get_access_token_payload (key : string) (scope : option string) (response : Response)
    (data : pyval) :
  requests_post w (token_request self key scope) = Ok response ->
  status_code response = 200 ->
  json response = Ok data ->
  get_access_token self w key scope = Ok (true, data).
Proof.
  intros Hpost Hstatus Hjson. unfold get_access_token. rewrite Hpost. simpl.
  rewrite Hstatus, Hjson. reflexivity.
Qed.

(** Whatever [get_access_token] returns is a success with the parsed
    body, or a failure with one of the two error dictionaries. *)
Lemma get_access_token_returns (key : string) (scope : option string) (ok : bool) (data : pyval) :
  get_access_token self w key scope = Ok (ok, data) ->
  (ok = true /\ exists response,
      requests_post w (token_request self key scope) = Ok response /\
      status_code response = 200 /\ json response = Ok data)
  \/ (ok = false /\ is_error_info data).
Proof.
  unfold get_access_token, is_error_info.
  destruct (requests_post w (token_request self key scope)) as [response | e] eqn:Hpost; simpl.
  - destruct (Z.eqb_spec (status_code response) 200) as [E | NE].
    + destruct (json response) as [j | e] eqn:Hjson; simpl.
      * intros [= <- <-]. left. eauto.
      * destruct e; simpl; try discriminate.
        intros [= <- <-]. right. eauto.
    + intros [= <- <-]. right. eauto.
  - destruct e; simpl; try discriminate.
    intros [= <- <-]. right. eauto.
Qed.

Lemma test_api_access_status (access_token : pyval) (response : Response) :
  requests_get w (probe_request str_other self access_token) = Ok response ->
  status_code response <> 200 ->
  test_api_access str_other self w access_token = Ok (false, http_error response).
Proof.
  intros Hget Hstatus. unfold test_api_access. rewrite Hget. simpl.
  destruct (Z.eqb_spec (status_code response) 200) as [E | _]; [contradiction | reflexivity].
Qed.

Lemma test_api_access_payload (access_token : pyval) (response : Response)
    (body : gmap string pyval) :
  requests_get w (probe_request str_other self access_token) = Ok response ->
  status_code response = 200 ->
  json response = Ok (VDict body) ->
  test_api_access str_other self w access_token = Ok (true, api_info_of body).
Proof.
  intros Hget Hstatus Hjson. unfold test_api_access. rewrite Hget. simpl.
  rewrite Hstatus, Hjson. reflexivity.
Qed.

Lemma test_api_access_returns (access_token : pyval) (ok : bool) (data : pyval) :
  test_api_access str_other self w access_token = Ok (ok, data) ->
  (ok = true /\ exists response body,
      requests_get w (probe_request str_other self access_token) = Ok response /\
      status_code response = 200 /\ json response = Ok (VDict body) /\
      data = api_info_of body)
  \/ (ok = false /\ is_error_info data).
Proof.
  unfold test_api_access, is_error_info.
  destruct (requests_get w (probe_request str_other self access_token))
    as [response | e] eqn:Hget; simpl.
  - destruct (Z.eqb_spec (status_code response) 200) as [E | NE].
    + destruct (json response) as [j | e] eqn:Hjson; simpl.
      * destruct j; simpl; try discriminate.
        intros [= <- <-]. left. eauto 10.
      * destruct e; simpl; try discriminate.
        intros [= <- <-]. right. eauto.
    + intros [= <- <-]. right. eauto.
  - destruct e; simpl; try discriminate.
    intros [= <- <-]. right. eauto.
Qed.

(** The ['error'] entry of an error dictionary is a string. *)
Lemma error_info_reason (data : pyval) :
  is_error_info data ->
  exists reason, py_get data "error" (VStr "Unknown error") = Ok (VStr reason).
Proof.
  intros [[response ->] | [msg ->]]; eexists; reflexivity.
Qed.

(** Every dictionary [validate_key] returns is one of the three exits. *)
Lemma validate_key_returns (key : string) (scope : option string) (r : gmap string pyval) :
  validate_key str_other self w key scope = Ok r ->
  (exists reason, r = token_failed (skeleton self w key) reason)
  \/ (exists info reason, r = probe_failed (skeleton self w key) info reason)
  \/ (exists info api, r = both_passed (skeleton self w key) info api).
Proof.
  unfold validate_key.
  destruct (get_access_token self w key scope) as [[ok data] | e] eqn:Htoken;
    [| discriminate].
  apply get_access_token_returns in Htoken.
  destruct Htoken as [[-> _] | [-> Herror]].
  - cbn. destruct data as [| | | | | | payload]; try discriminate. cbn.
    destruct (payload !! "access_token") as [access_token |]; [| discriminate]. cbn.
    destruct (test_api_access str_other self w access_token) as [[ok data] | e] eqn:Hprobe;
      [| discriminate].
    apply test_api_access_returns in Hprobe.
    destruct Hprobe as [[-> _] | [-> Herror]].
    + cbn. intros [= <-]. right. right. eauto.
    + destruct (error_info_reason data Herror) as [reason Hreason].
      cbn. rewrite Hreason. cbn. intros [= <-]. right. left. eauto.
  - destruct (error_info_reason data Herror) as [reason Hreason].
    cbn. rewrite Hreason. cbn. intros [= <-]. left. eauto.
Qed.

End RequestFacts.

(** Case analysis on the exit a returned dictionary came from. *)
Ltac by_exit H :=
  apply validate_key_returns in H;
  destruct H as [[reason ->] | [[info [reason ->]] | [info [api ->]]]].

(** ** validate_key *)

(** C1.  Whatever the key and the outcomes of the two phases, a
    dictionary returned by [validate_key] has [valid] true exactly when
    [token_obtained] and [api_accessible] are both true, and an empty
    [errors] list exactly when [valid] is true. *)
Theorem verdict_invariant (str_other : pyval -> string) (self : LookoutAPIValidator)
    (w : World) (key : string) (scope : option string) (r : gmap string pyval) :
  validate_key str_other self w key scope = Ok r ->
  exists valid token_obtained api_accessible errors,
    r !! "valid" = Some (VBool valid) /\
    r !! "token_obtained" = Some (VBool token_obtained) /\
    r !! "api_accessible" = Some (VBool api_accessible) /\
    r !! "errors" = Some (VList errors) /\
    (valid = true <-> token_obtained = true /\ api_accessible = true) /\
    (errors = [] <-> valid = true).
Proof.
  intros Hr. by_exit Hr.
  - exists false, false, false, [VStr ("Token request failed: " +:+ reason)].
    repeat split; try reflexivity; try discriminate; intros []; discriminate.
  - exists false, true, false, [VStr ("API access failed: " +:+ reason)].
    repeat split; try reflexivity; try discriminate; intros []; discriminate.
  - exists true, true, true, []. repeat split; reflexivity.
Qed.

Lemma verdict_invariant_witness :
  exists r,
    validate_key Sample.str_other Sample.validator Sample.denied "app-key" None = Ok r /\
    exists valid token_obtained api_accessible errors,
      r !! "valid" = Some (VBool valid) /\
      r !! "token_obtained" = Some (VBool token_obtained) /\
      r !! "api_accessible" = Some (VBool api_accessible) /\
      r !! "errors" = Some (VList errors) /\
      (valid = true <-> token_obtained = true /\ api_accessible = true) /\
      (errors = [] <-> valid = true).
Proof.
  eexists. split; [reflexivity |].
  apply (verdict_invariant Sample.str_other Sample.validator Sample.denied "app-key" None).
  reflexivity.
Defined.

(** C2.  The token payload is not read with a default throughout: when
    the token endpoint answers 200 with a JSON object that has no
    [access_token], [validate_key] returns no dictionary; the [KeyError]
    of the subscript [token_data['access_token']] leaves it. *)
Theorem missing_access_token_raises (str_other : pyval -> string)
    (self : LookoutAPIValidator) (w : World) (key : string) (scope : option string)
    (response : Response) (payload : gmap string pyval) :
  requests_post w (token_request self key scope) = Ok response ->
  status_code response = 200 ->
  json response = Ok (VDict payload) ->
  payload !! "access_token" = None ->
  validate_key str_other self w key scope = Raise (KeyError "access_token").
Proof.
  intros Hpost Hstatus Hjson Hmissing. unfold validate_key.
  rewrite (get_access_token_payload self w key scope response _ Hpost Hstatus Hjson).
  cbn. rewrite Hmissing. reflexivity.
Qed.

Lemma missing_access_token_raises_witness :
  validate_key Sample.str_other Sample.validator Sample.tokenless "app-key" None
  = Raise (KeyError "access_token").
Proof.
  apply (missing_access_token_raises _ _ _ _ _
           (Sample.reply 200 "{}" (Ok (VDict (pydict [("token_type", VStr "Bearer")]))))
           (pydict [("token_type", VStr "Bearer")])); reflexivity.
Defined.

(** C3.  When the token request is answered with a status other than
    200, [validate_key] returns a dictionary with [token_obtained] and
    [api_accessible] false, one error, which names the HTTP status, and
    no [token_info] entry. *)
Theorem token_status_rejected (str_other : pyval -> string) (self : LookoutAPIValidator)
    (w : World) (key : string) (scope : option string) (response : Response) :
  requests_post w (token_request self key scope) = Ok response ->
  status_code response <> 200 ->
  exists r,
    validate_key str_other self w key scope = Ok r /\
    r !! "token_obtained" = Some (VBool false) /\
    r !! "api_accessible" = Some (VBool false) /\
    r !! "errors"
      = Some (VList [VStr ("Token request failed: HTTP " +:+ str_int (status_code response))]) /\
    r !! "token_info" = None.
Proof.
  intros Hpost Hstatus.
  exists (token_failed (skeleton self w key) ("HTTP " +:+ str_int (status_code response))).
  split; [| repeat split; reflexivity].
  unfold validate_key. rewrite (get_access_token_status self w key scope response Hpost Hstatus).
  reflexivity.
Qed.

Lemma token_status_rejected_witness :
  exists r,
    validate_key Sample.str_other Sample.validator Sample.refused "app-key" None = Ok r /\
    r !! "token_obtained" = Some (VBool false) /\
    r !! "api_accessible" = Some (VBool false) /\
    r !! "errors" = Some (VList [VStr "Token request failed: HTTP 401"]) /\
    r !! "token_info" = None.
Proof.
  apply (token_status_rejected Sample.str_other Sample.validator Sample.refused "app-key" None
           (Sample.reply 401 "unauthorized" Sample.no_body)).
  - reflexivity.
  - discriminate.
Defined.

(** C4.  When the token request is answered 200 and the probe sent with
    the granted token is answered with another status, [validate_key]
    returns a dictionary with [token_obtained] true, a [token_info] that
    holds [token_type], [expires_in] and [expires_at] of the payload
    ([None] when missing) and its [scope] (the empty string when
    missing), [api_accessible] false, and one error, which names the
    status of the probe. *)
Theorem probe_status_rejected (str_other : pyval -> string) (self : LookoutAPIValidator)
    (w : World) (key : string) (scope : option string)
    (granted : Response) (payload : gmap string pyval) (access_token : pyval)
    (probed : Response) :
  requests_post w (token_request self key scope) = Ok granted ->
  status_code granted = 200 ->
  json granted = Ok (VDict payload) ->
  payload !! "access_token" = Some access_token ->
  requests_get w (probe_request str_other self access_token) = Ok probed ->
  status_code probed <> 200 ->
  exists r info,
    validate_key str_other self w key scope = Ok r /\
    r !! "token_obtained" = Some (VBool true) /\
    r !! "token_info" = Some (VDict info) /\
    info !! "token_type" = Some (default VNone (payload !! "token_type")) /\
    info !! "expires_in" = Some (default VNone (payload !! "expires_in")) /\
    info !! "expires_at" = Some (default VNone (payload !! "expires_at")) /\
    info !! "scope" = Some (default (VStr "") (payload !! "scope")) /\
    r !! "api_accessible" = Some (VBool false) /\
    r !! "errors"
      = Some (VList [VStr ("API access failed: HTTP " +:+ str_int (status_code probed))]).
Proof.
  intros Hpost Hgranted Hjson Htoken Hget Hprobed.
  exists (probe_failed (skeleton self w key) (token_info_of payload)
            ("HTTP " +:+ str_int (status_code probed))).
  eexists. split; [| repeat split; reflexivity].
  unfold validate_key.
  rewrite (get_access_token_payload self w key scope granted _ Hpost Hgranted Hjson).
  cbn. rewrite Htoken. cbn.
  rewrite (test_api_access_status str_other self w access_token probed Hget Hprobed).
  reflexivity.
Qed.

Lemma probe_status_rejected_witness :
  exists r info,
    validate_key Sample.str_other Sample.validator Sample.denied "app-key" None = Ok r /\
    r !! "token_obtained" = Some (VBool true) /\
    r !! "token_info" = Some (VDict info) /\
    info !! "token_type" = Some (VStr "Bearer") /\
    info !! "expires_in" = Some (VInt 3600) /\
    info !! "expires_at" = Some VNone /\
    info !! "scope" = Some (VStr "") /\
    r !! "api_accessible" = Some (VBool false) /\
    r !! "errors" = Some (VList [VStr "API access failed: HTTP 403"]).
Proof.
  apply (probe_status_rejected Sample.str_other Sample.validator Sample.denied "app-key" None
           (Sample.reply 200 "{}" (Ok (VDict Sample.token_payload)))
           Sample.token_payload (VStr "tok-1")
           (Sample.reply 403 "forbidden" Sample.no_body)).
  - reflexivity.
  - reflexivity.
  - reflexivity.
  - reflexivity.
  - reflexivity.
  - discriminate.
Defined.

(** C5, as the code has it.  When the token request and the probe sent
    with the granted token are both answered 200 and the body of the probe
    parses as a JSON object, [validate_key] returns a dictionary with
    [valid] true whose [device_count] is the [count] of the probe body,
    and 0 when the body has no [count]. *)
Theorem device_count_reported (str_other : pyval -> string) (self : LookoutAPIValidator)
    (w : World) (key : string) (scope : option string)
    (granted : Response) (payload : gmap string pyval) (access_token : pyval)
    (probed : Response) (body : gmap string pyval) :
  requests_post w (token_request self key scope) = Ok granted ->
  status_code granted = 200 ->
  json granted = Ok (VDict payload) ->
  payload !! "access_token" = Some access_token ->
  requests_get w (probe_request str_other self access_token) = Ok probed ->
  status_code probed = 200 ->
  json probed = Ok (VDict body) ->
  exists r api,
    validate_key str_other self w key scope = Ok r /\
    r !! "valid" = Some (VBool true) /\
    r !! "api_info" = Some (VDict api) /\
    api !! "device_count" = Some (default (VInt 0) (body !! "count")).
Proof.
  intros Hpost Hgranted Hjson Htoken Hget Hprobed Hbody.
  exists (both_passed (skeleton self w key) (token_info_of payload) (api_info_of body)).
  eexists. split; [| repeat split; reflexivity].
  unfold validate_key.
  rewrite (get_access_token_payload self w key scope granted _ Hpost Hgranted Hjson).
  cbn. rewrite Htoken. cbn.
  rewrite (test_api_access_payload str_other self w access_token probed body Hget Hprobed Hbody).
  reflexivity.
Qed.

Lemma device_count_reported_witness :
  exists r api,
    validate_key Sample.str_other Sample.validator Sample.granted "app-key" None = Ok r /\
    r !! "valid" = Some (VBool true) /\
    r !! "api_info" = Some (VDict api) /\
    api !! "device_count" = Some (VInt 7).
Proof.
  apply (device_count_reported Sample.str_other Sample.validator Sample.granted "app-key" None
           (Sample.reply 200 "{}" (Ok (VDict Sample.token_payload)))
           Sample.token_payload (VStr "tok-1")
           (Sample.reply 200 "{}" (Ok (VDict Sample.probe_payload)))
           Sample.probe_payload); reflexivity.
Defined.

(** C5, as it is worded.  Both requests are answered 200, but the body
    of the probe does not parse: [validate_key] returns a result with
    [valid] false, the error of a failed probe and no device count. *)
Lemma unparsed_probe_not_valid :
  (exists granted probed,
     requests_post Cases.garbled (token_request Sample.validator "app-key" None)
       = Ok granted /\
     status_code granted = 200 /\
     requests_get Cases.garbled
       (probe_request Sample.str_other Sample.validator (VStr "tok-1")) = Ok probed /\
     status_code probed = 200) /\
  exists r,
    validate_key Sample.str_other Sample.validator Cases.garbled "app-key" None = Ok r /\
    r !! "valid" = Some (VBool false) /\
    r !! "errors" = Some (VList [VStr "API access failed: Network error"]) /\
    r !! "api_info" = None.
Proof.
  split.
  - eexists. eexists. repeat split.
  - eexists. split; [reflexivity |]. repeat split.
Qed.

(** ** Strings *)

Lemma slice_to_first_chars (n : nat) (s : string) : slice_to n s = first_chars n s.
Proof.
  unfold slice_to, first_chars. revert n.
  induction s as [| c s IH]; intros [| n]; simpl; try reflexivity.
  f_equal. apply IH.
Qed.

Lemma first_chars_length (n : nat) (s : string) :
  (n <= String.length s)%nat -> String.length (first_chars n s) = n.
Proof.
  unfold first_chars. revert n.
  induction s as [| c s IH]; intros [| n] Hn; simpl in *; try reflexivity; try lia.
  f_equal. apply IH. lia.
Qed.

Lemma first_chars_prefix (n : nat) (s : string) :
  exists rest, s = first_chars n s +:+ rest.
Proof.
  unfold first_chars. revert n.
  induction s as [| c s IH]; intros [| n]; simpl.
  - exists EmptyString. reflexivity.
  - exists EmptyString. reflexivity.
  - eexists. reflexivity.
  - destruct (IH n) as [rest Hrest]. exists rest.
    change (String c s = String c (string_of_list_ascii (take n (list_ascii_of_string s)) +:+ rest)).
    f_equal. exact Hrest.
Qed.

Lemma lstrip_blank (s : string) : is_blank s = true -> lstrip s = EmptyString.
Proof.
  unfold is_blank. induction s as [| c s IH]; simpl; [reflexivity |].
  destruct (isspace c); simpl; [exact IH | discriminate].
Qed.

Lemma lstrip_not_blank (s : string) :
  is_blank s = false -> exists c r, lstrip s = String c r /\ isspace c = false.
Proof.
  unfold is_blank. induction s as [| c s IH]; simpl; [discriminate |].
  destruct (isspace c) eqn:Hc; simpl; [exact IH | eauto].
Qed.

Lemma rstrip_by_head (p : ascii -> bool) (c : ascii) (r : string) :
  p c = false -> exists r', rstrip_by p (String c r) = String c r'.
Proof.
  intros Hc. simpl. destruct (rstrip_by p r); rewrite ?Hc; eauto.
Qed.

Lemma strip_truthy (line : string) : str_truthy (strip line) = negb (is_blank line).
Proof.
  unfold strip. destruct (is_blank line) eqn:Hb.
  - rewrite (lstrip_blank _ Hb). reflexivity.
  - destruct (lstrip_not_blank _ Hb) as (c & r & -> & Hc).
    destruct (rstrip_by_head isspace c r Hc) as [r' ->]. reflexivity.
Qed.

Lemma startswith_head (c : ascii) (r r' : string) (p : string) :
  String.length p = 1%nat -> startswith (String c r) p = startswith (String c r') p.
Proof.
  destruct p as [| a [| b p]]; simpl; try discriminate. intros _.
  unfold startswith. simpl. destruct (ascii_dec a c); [| reflexivity].
  destruct r, r'; reflexivity.
Qed.

Lemma strip_is_comment (line : string) : startswith (strip line) "#" = is_comment line.
Proof.
  unfold strip, is_comment. destruct (is_blank line) eqn:Hb.
  - rewrite (lstrip_blank _ Hb). reflexivity.
  - destruct (lstrip_not_blank _ Hb) as (c & r & -> & Hc).
    destruct (rstrip_by_head isspace c r Hc) as [r' ->].
    apply startswith_head. reflexivity.
Qed.

Lemma load_keys_unreadable (fs : FileSystem) (filename : string) (e : exn) :
  read_text fs filename = Raise e -> load_keys_from_file fs filename = [].
Proof. intros Hread. unfold load_keys_from_file. rewrite Hread. reflexivity. Qed.

Lemma keys_of_lines_filter (f : list string) :
  keys_of_lines f
  = map strip (List.filter (fun line => negb (is_blank line) && negb (is_comment line)) f).
Proof.
  unfold keys_of_lines. induction f as [| line f IH]; simpl; [reflexivity |].
  rewrite strip_truthy, strip_is_comment, IH.
  destruct (negb (is_blank line) && negb (is_comment line)); reflexivity.
Qed.

(** ** The dictionary fields *)

(** C6.  The ['application_key'] of a returned dictionary is the key
    itself when the key has at most 20 characters, and the first 20
    characters of the key followed by ["..."] when it has more. *)
Theorem shown_key_redaction (str_other : pyval -> string) (self : LookoutAPIValidator)
    (w : World) (key : string) (scope : option string) (r : gmap string pyval) :
  validate_key str_other self w key scope = Ok r ->
  ((String.length key <= 20)%nat -> r !! "application_key" = Some (VStr key)) /\
  ((20 < String.length key)%nat ->
     r !! "application_key" = Some (VStr (first_chars 20 key +:+ "...")) /\
     String.length (first_chars 20 key) = 20%nat /\
     exists rest, key = first_chars 20 key +:+ rest).
Proof.
  intros Hr.
  assert (r !! "application_key" = Some (VStr (shown_key key))) as ->.
  { by_exit Hr; reflexivity. }
  unfold shown_key. split; intros Hlen.
  - destruct (Nat.ltb_spec 20 (String.length key)); [lia | reflexivity].
  - destruct (Nat.ltb_spec 20 (String.length key)); [| lia].
    rewrite slice_to_first_chars. split; [reflexivity |].
    split; [apply first_chars_length; lia | apply first_chars_prefix].
Qed.

Lemma shown_key_redaction_witness :
  exists r,
    validate_key Sample.str_other Sample.validator Sample.refused Sample.long_key None = Ok r /\
    r !! "application_key" = Some (VStr "0123456789abcdefghij...").
Proof.
  eexists. split; [reflexivity |].
  apply (shown_key_redaction Sample.str_other Sample.validator Sample.refused
           Sample.long_key None _ eq_refl).
  simpl. lia.
Defined.

(** C9.  In a returned dictionary, [api_accessible] true implies
    [token_obtained] true. *)
Theorem api_needs_token (str_other : pyval -> string) (self : LookoutAPIValidator)
    (w : World) (key : string) (scope : option string) (r : gmap string pyval) :
  validate_key str_other self w key scope = Ok r ->
  r !! "api_accessible" = Some (VBool true) ->
  r !! "token_obtained" = Some (VBool true).
Proof.
  intros Hr. by_exit Hr.
  - intros Habsurd. discriminate Habsurd.
  - intros _. reflexivity.
  - intros _. reflexivity.
Qed.

Lemma api_needs_token_witness :
  exists r,
    validate_key Sample.str_other Sample.validator Sample.granted "app-key" None = Ok r /\
    r !! "token_obtained" = Some (VBool true).
Proof.
  eexists. split; [reflexivity |].
  apply (api_needs_token Sample.str_other Sample.validator Sample.granted "app-key" None);
    reflexivity.
Defined.

(** C10.  [validate_key] starts from an empty [errors] list, and a
    returned dictionary holds at most one error: the message of the token
    phase or that of the probe phase. *)
Theorem at_most_one_error (str_other : pyval -> string) (self : LookoutAPIValidator)
    (w : World) (key : string) (scope : option string) :
  skeleton self w key !! "errors" = Some (VList []) /\
  forall r, validate_key str_other self w key scope = Ok r ->
    exists errors,
      r !! "errors" = Some (VList errors) /\
      (length errors <= 1)%nat /\
      forall e, In e errors ->
        exists reason,
          e = VStr ("Token request failed: " +:+ reason) \/
          e = VStr ("API access failed: " +:+ reason).
Proof.
  split; [reflexivity |].
  intros r Hr. by_exit Hr;
    eexists; (split; [reflexivity |]); (split; [simpl; lia |]); simpl.
  - intros e [<- | []]. eauto.
  - intros e [<- | []]. eauto.
  - intros e [].
Qed.

Lemma at_most_one_error_witness :
  exists r errors,
    validate_key Sample.str_other Sample.validator Sample.denied "app-key" None = Ok r /\
    r !! "errors" = Some (VList errors) /\
    (length errors <= 1)%nat.
Proof.
  destruct (at_most_one_error Sample.str_other Sample.validator Sample.denied "app-key" None)
    as [_ Hret].
  destruct (Hret _ eq_refl) as (errors & Herrors & Hlen & _).
  eexists. exists errors. split; [reflexivity |]. split; [exact Herrors | exact Hlen].
Defined.

(** ** load_keys_from_file *)

(** C8, as the code has it.  The keys loaded from a file are its lines,
    in order, without the blank lines and without the lines whose first
    character that is not whitespace is [#], each stripped of the
    whitespace around it. *)
Theorem keys_loaded (fs : FileSystem) (filename content : string) :
  read_text fs filename = Ok content ->
  load_keys_from_file fs filename = keys_after_lstrip content.
Proof.
  intros Hread. unfold load_keys_from_file, keys_after_lstrip. rewrite Hread.
  apply keys_of_lines_filter.
Qed.

Lemma keys_loaded_witness :
  load_keys_from_file (Sample.disk Sample.key_file) "keys.txt" = ["alpha"; "beta"].
Proof.
  rewrite (keys_loaded (Sample.disk Sample.key_file) "keys.txt" Sample.key_file);
    reflexivity.
Defined.

(** C8, as it is worded.  A line with whitespace before its [#] does not
    start with [#], so the wording keeps it; the code drops it. *)
Lemma indented_comment_dropped :
  read_text (Sample.disk Sample.indented_comment) "keys.txt" = Ok Sample.indented_comment /\
  keys_as_specified Sample.indented_comment = ["#x"] /\
  load_keys_from_file (Sample.disk Sample.indented_comment) "keys.txt" = [] /\
  load_keys_from_file (Sample.disk Sample.indented_comment) "keys.txt"
    <> keys_as_specified Sample.indented_comment.
Proof.
  split; [reflexivity |]. split; [reflexivity |]. split; [reflexivity |]. discriminate.
Qed.

(** ** main *)

Section Batch.

Variable str_other : pyval -> string.

Lemma validate_key_valid_flag (self : LookoutAPIValidator) (w : World) (key : string)
    (scope : option string) (r : gmap string pyval) :
  validate_key str_other self w key scope = Ok r ->
  exists b, r !! "valid" = Some (VBool b).
Proof.
  intros Hr. by_exit Hr;
    eexists; reflexivity.
Qed.

Lemma validate_each_valid_flags (self : LookoutAPIValidator) (world : nat -> World)
    (scope : option string) (keys : list string) :
  forall (i : nat) (results : list (gmap string pyval)),
    validate_each str_other self world scope i keys = Ok results ->
    Forall (fun r => exists b, r !! "valid" = Some (VBool b)) results.
Proof.
  induction keys as [| key keys IH]; intros i results; cbn.
  - intros [= <-]. constructor.
  - destruct (validate_key str_other self (world i) key scope) as [r | e] eqn:Hr;
      [| discriminate]. cbn.
    destruct (validate_each str_other self world scope (S i) keys) as [rs | e] eqn:Hrs;
      [| discriminate]. cbn.
    intros [= <-]. constructor; [eapply validate_key_valid_flag; eauto | eapply IH; eauto].
Qed.

Lemma validate_each_length (self : LookoutAPIValidator) (world : nat -> World)
    (scope : option string) (keys : list string) :
  forall (i : nat) (results : list (gmap string pyval)),
    validate_each str_other self world scope i keys = Ok results ->
    length results = length keys.
Proof.
  induction keys as [| key keys IH]; intros i results; cbn.
  - intros [= <-]. reflexivity.
  - destruct (validate_key str_other self (world i) key scope) as [r | e]; [| discriminate].
    cbn.
    destruct (validate_each str_other self world scope (S i) keys) as [rs | e] eqn:Hrs;
      [| discriminate]. cbn.
    intros [= <-]. simpl. f_equal. eapply IH; eauto.
Qed.

(** On results that carry a boolean [valid], [all] returns, and it
    returns [True] exactly when every result is valid. *)
Lemma all_valid_Forall (results : list (gmap string pyval)) :
  Forall (fun r => exists b, r !! "valid" = Some (VBool b)) results ->
  exists ok, all_valid results = Ok ok /\ (ok = true <-> Forall is_valid results).
Proof.
  induction 1 as [| r rs [b Hb] _ (ok & Hok & IH)]; cbn.
  - exists true. split; [reflexivity |]. split; [constructor | reflexivity].
  - rewrite Hb. cbn. destruct b.
    + exists ok. split; [exact Hok |]. rewrite IH. split.
      * intros Hrs. constructor; [exact Hb | exact Hrs].
      * intros Hall. inversion Hall; assumption.
    + exists false. split; [reflexivity |]. split; [discriminate |].
      intros Hall. inversion Hall as [| ? ? Hvalid _]; subst.
      unfold is_valid in Hvalid. rewrite Hb in Hvalid. discriminate.
Qed.

Lemma write_attempt (fs : FileSystem) (output : option string)
    (results : list (gmap string pyval)) :
  (if opt_truthy output then
     try_except_Exception (write_json fs (default EmptyString output) results)
       (fun _ => mret tt)
   else mret tt) = Ok tt.
Proof.
  destruct (opt_truthy output); [| reflexivity].
  destruct (write_json fs (default EmptyString output) results) as [[] | e]; reflexivity.
Qed.

Lemma run_completed (fs : FileSystem) (world : nat -> World) (args : Args)
    (keys : list string) (results : list (gmap string pyval)) :
  validate_each str_other (init (args_url args) (args_skip_ssl_verify args)) world
    (args_scope args) 1%nat keys = Ok results ->
  exists code, run str_other fs world args keys = Ok code /\
    (code = 0 <-> Forall is_valid results).
Proof.
  intros Hresults. unfold run. rewrite Hresults. cbn.
  rewrite write_attempt. cbn.
  destruct (all_valid_Forall results) as (ok & -> & Hok).
  { eapply validate_each_valid_flags; eauto. }
  cbn. destruct ok; cbn.
  - exists 0. split; [reflexivity |]. rewrite <- Hok. split; reflexivity.
  - exists 1. split; [reflexivity |]. rewrite <- Hok. split; discriminate.
Qed.

Lemma run_any_disk (fs fs' : FileSystem) (world : nat -> World) (args : Args)
    (keys : list string) :
  run str_other fs' world args keys = run str_other fs world args keys.
Proof.
  unfold run.
  destruct (validate_each str_other _ world (args_scope args) 1%nat keys) as [results | e];
    [| reflexivity].
  cbn. rewrite !write_attempt. reflexivity.
Qed.

Lemma main_resolved (fs : FileSystem) (world : nat -> World) (args : Args) :
  main str_other fs world args
  = match resolved_keys fs args with
    | [] => Ok 1
    | keys => run str_other fs world args keys
    end.
Proof.
  unfold main, resolved_keys.
  destruct (opt_truthy (args_file args)).
  - destruct (load_keys_from_file fs (default EmptyString (args_file args))); reflexivity.
  - unfold opt_truthy. destruct (opt_or (args_key args) (args_key_arg args)) as [[| c key] |];
      reflexivity.
Qed.

Lemma resolved_keys_reads (fs fs' : FileSystem) (args : Args) :
  read_text fs' = read_text fs -> resolved_keys fs' args = resolved_keys fs args.
Proof.
  intros Hread. unfold resolved_keys, load_keys_from_file. rewrite Hread. reflexivity.
Qed.

(** The loop returns results that are all valid exactly when
    [validate_key] returns a valid result for every key, each in the world
    of its turn. *)
Lemma validate_each_all_valid (self : LookoutAPIValidator) (world : nat -> World)
    (scope : option string) (keys : list string) :
  forall i : nat,
    (exists results,
       validate_each str_other self world scope i keys = Ok results /\
       Forall is_valid results)
    <->
    (forall (j : nat) (key : string),
       keys !! j = Some key ->
       exists r,
         validate_key str_other self (world (i + j)%nat) key scope = Ok r /\ is_valid r).
Proof.
  induction keys as [| key keys IH]; intros i.
  - split.
    + intros _ j k Hj. discriminate Hj.
    + intros _. exists []. split; [reflexivity | constructor].
  - cbn [validate_each]. split.
    + intros (results & Hresults & Hall) j k Hj.
      destruct (validate_key str_other self (world i) key scope) as [r | e] eqn:Hr;
        [| discriminate Hresults].
      cbn in Hresults.
      destruct (validate_each str_other self world scope (S i) keys) as [rs | e] eqn:Hrs;
        [| discriminate Hresults].
      cbn in Hresults. injection Hresults as <-.
      inversion Hall as [| ? ? Hhead Hrest]; subst.
      destruct j as [| j]; cbn in Hj.
      * injection Hj as <-. rewrite Nat.add_0_r. exists r. split; [exact Hr | exact Hhead].
      * replace (i + S j)%nat with (S i + j)%nat by lia.
        apply (proj1 (IH (S i))); [| exact Hj]. exists rs. split; [exact Hrs | exact Hrest].
    + intros Heach.
      destruct (Heach 0%nat key eq_refl) as (r & Hr & Hvalid).
      rewrite Nat.add_0_r in Hr. rewrite Hr. cbn.
      destruct (proj2 (IH (S i))) as (rs & Hrs & Hrest).
      { intros j k Hj. replace (S i + j)%nat with (i + S j)%nat by lia.
        apply Heach. exact Hj. }
      rewrite Hrs. cbn. exists (r :: rs). split; [reflexivity |].
      constructor; [exact Hvalid | exact Hrest].
Qed.

End Batch.

(** C7.  The exit code is 0 exactly when at least one key is resolved
    and [validate_key] returns a result with [valid] set for every
    resolved key, each in its turn; in every other run (no key resolved, a
    result that is not valid, an exception that leaves [validate_key]) it
    is not 0.  What becomes of the output file has no part in the exit
    code. *)
Theorem exit_code_contract (str_other : pyval -> string) (fs : FileSystem)
    (world : nat -> World) (args : Args) :
  (exit_code (main str_other fs world args) = 0 <->
   resolved_keys fs args <> [] /\
   forall (j : nat) (key : string),
     resolved_keys fs args !! j = Some key ->
     exists r,
       validate_key str_other (init (args_url args) (args_skip_ssl_verify args))
         (world (1 + j)%nat) key (args_scope args) = Ok r /\
       is_valid r) /\
  (resolved_keys fs args = [] -> exit_code (main str_other fs world args) <> 0) /\
  (forall fs',
     read_text fs' = read_text fs ->
     exit_code (main str_other fs' world args) = exit_code (main str_other fs world args)).
Proof.
  split; [| split].
  - rewrite <- validate_each_all_valid. rewrite main_resolved.
    destruct (resolved_keys fs args) as [| key keys] eqn:Hkeys.
    + split; [discriminate | intros [Habsurd _]; contradiction].
    + destruct (validate_each str_other _ world (args_scope args) 1%nat (key :: keys))
        as [results | e] eqn:Hresults.
      * destruct (run_completed str_other fs world args _ _ Hresults) as (code & -> & Hcode).
        cbn [exit_code]. rewrite Hcode. split.
        -- intros Hall. split; [discriminate |]. exists results. split; [reflexivity | exact Hall].
        -- intros (_ & results' & [= <-] & Hall). exact Hall.
      * unfold run. rewrite Hresults. split; [discriminate |].
        intros (_ & results' & Habsurd & _). discriminate Habsurd.
  - intros Hnone. rewrite main_resolved, Hnone. discriminate.
  - intros fs' Hread. rewrite !main_resolved, (resolved_keys_reads fs fs' args Hread).
    destruct (resolved_keys fs args); [reflexivity |].
    rewrite (run_any_disk str_other fs fs'). reflexivity.
Qed.

Lemma exit_code_contract_witness :
  exit_code (main Sample.str_other (Sample.disk Sample.key_file) (fun _ => Sample.granted)
               (Sample.cli (Some "keys.txt") None)) = 0 /\
  exit_code (main Sample.str_other (Sample.disk Sample.key_file) Cases.second_refused
               (Sample.cli (Some "keys.txt") None)) <> 0 /\
  exit_code (main Sample.str_other (Sample.disk Sample.key_file) Cases.second_tokenless
               (Sample.cli (Some "keys.txt") None)) <> 0 /\
  exit_code (main Sample.str_other (Sample.disk Sample.indented_comment)
               (fun _ => Sample.granted) (Sample.cli (Some "keys.txt") None)) <> 0.
Proof.
  split; [| split; [| split]].
  - apply (proj1 (exit_code_contract Sample.str_other (Sample.disk Sample.key_file)
                    (fun _ => Sample.granted) (Sample.cli (Some "keys.txt") None))).
    split; [discriminate |].
    intros [| [| j]] key Hkey; cbn in Hkey; try discriminate Hkey;
      injection Hkey as <-; eexists; split; reflexivity.
  - intros Hzero.
    apply (proj1 (exit_code_contract Sample.str_other (Sample.disk Sample.key_file)
                    Cases.second_refused (Sample.cli (Some "keys.txt") None))) in Hzero.
    destruct Hzero as [_ Heach].
    destruct (Heach 1%nat "beta" eq_refl) as (r & Hr & Hvalid).
    injection Hr as <-. discriminate Hvalid.
  - intros Hzero.
    apply (proj1 (exit_code_contract Sample.str_other (Sample.disk Sample.key_file)
                    Cases.second_tokenless (Sample.cli (Some "keys.txt") None))) in Hzero.
    destruct Hzero as [_ Heach].
    destruct (Heach 1%nat "beta" eq_refl) as (r & Hr & _).
    discriminate Hr.
  - apply (exit_code_contract Sample.str_other (Sample.disk Sample.indented_comment)
             (fun _ => Sample.granted) (Sample.cli (Some "keys.txt") None)).
    reflexivity.
Defined.

(** * Further properties

    ** The two requests, in full *)

Section RequestOutcomes.

Variable str_other : pyval -> string.
Variables (self : LookoutAPIValidator) (w : World).

Lemma get_access_token_network (key : string) (scope : option string) (msg : string) :
  requests_post w (token_request self key scope) = Raise (RequestException msg)
  \/ (exists response,
        requests_post w (token_request self key scope) = Ok response /\
        status_code response = 200 /\
        json response = Raise (RequestException msg)) ->
  get_access_token self w key scope = Ok (false, network_error msg).
Proof.
  unfold get_access_token. intros [-> | (response & -> & Hstatus & Hjson)]; cbn.
  - reflexivity.
  - rewrite Hstatus, Hjson. reflexivity.
Qed.

Lemma test_api_access_network (access_token : pyval) (msg : string) :
  requests_get w (probe_request str_other self access_token) = Raise (RequestException msg)
  \/ (exists response,
        requests_get w (probe_request str_other self access_token) = Ok response /\
        status_code response = 200 /\
        json response = Raise (RequestException msg)) ->
  test_api_access str_other self w access_token = Ok (false, network_error msg).
Proof.
  unfold test_api_access. intros [-> | (response & -> & Hstatus & Hjson)]; cbn.
  - reflexivity.
  - rewrite Hstatus, Hjson. reflexivity.
Qed.

(** An exception that leaves [get_access_token] is one that
    [requests.post] or [json()] raised, and no [RequestException]. *)
Lemma get_access_token_raises (key : string) (scope : option string) (e : exn) :
  get_access_token self w key scope = Raise e ->
  is_request_exception e = false /\
  (requests_post w (token_request self key scope) = Raise e
   \/ exists response,
        requests_post w (token_request self key scope) = Ok response /\
        status_code response = 200 /\ json response = Raise e).
Proof.
  unfold get_access_token.
  destruct (requests_post w (token_request self key scope)) as [response | e'] eqn:Hpost; cbn.
  - destruct (Z.eqb_spec (status_code response) 200) as [E | NE]; [| discriminate].
    destruct (json response) as [j | e'] eqn:Hjson; cbn; [discriminate |].
    destruct e'; cbn; try discriminate; intros [= <-]; (split; [reflexivity |]); eauto.
  - destruct e'; cbn; try discriminate; intros [= <-]; (split; [reflexivity |]); eauto.
Qed.

(** An exception that leaves [test_api_access] is one that
    [requests.get] or [json()] raised and no [RequestException], or the
    [AttributeError] of a body that is no JSON object. *)
Lemma test_api_access_raises (access_token : pyval) (e : exn) :
  test_api_access str_other self w access_token = Raise e ->
  is_request_exception e = false /\
  (requests_get w (probe_request str_other self access_token) = Raise e
   \/ exists response,
        requests_get w (probe_request str_other self access_token) = Ok response /\
        status_code response = 200 /\
        (json response = Raise e
         \/ exists body, json response = Ok body /\ py_get body "count" (VInt 0) = Raise e)).
Proof.
  unfold test_api_access.
  destruct (requests_get w (probe_request str_other self access_token))
    as [response | e'] eqn:Hget; cbn.
  - destruct (Z.eqb_spec (status_code response) 200) as [E | NE]; [| discriminate].
    destruct (json response) as [j | e'] eqn:Hjson; cbn.
    + destruct (py_get j "count" (VInt 0)) as [count | e'] eqn:Hcount; cbn; [discriminate |].
      assert (is_request_exception e' = false) as Hclass
        by (destruct j; cbn in Hcount; try discriminate; injection Hcount as <-; reflexivity).
      destruct e'; cbn in *; try discriminate; intros [= <-]; (split; [reflexivity |]);
        right; exists response; eauto 10.
    + destruct e'; cbn; try discriminate; intros [= <-]; (split; [reflexivity |]); eauto 10.
  - destruct e'; cbn; try discriminate; intros [= <-]; (split; [reflexivity |]); eauto.
Qed.

(** What [validate_key] does once the token phase has succeeded with a
    JSON object that holds [access_token]. *)
Lemma validate_key_granted (key : string) (scope : option string)
    (payload : gmap string pyval) (access_token : pyval) :
  get_access_token self w key scope = Ok (true, VDict payload) ->
  payload !! "access_token" = Some access_token ->
  validate_key str_other self w key scope
  = match test_api_access str_other self w access_token with
    | Ok (true, api) =>
        Ok (both_passed (skeleton self w key) (token_info_of payload) api)
    | Ok (false, data) =>
        error ← py_get data "error" (VStr "Unknown error");
        Ok (probe_failed (skeleton self w key) (token_info_of payload) (py_str str_other error))
    | Raise e => Raise e
    end.
Proof.
  intros Htoken Haccess. unfold validate_key. rewrite Htoken. cbn. rewrite Haccess. cbn.
  destruct (test_api_access str_other self w access_token) as [[[|] data] | e]; cbn;
    [reflexivity | | reflexivity].
  destruct (py_get data "error" (VStr "Unknown error")); reflexivity.
Qed.

(** What [validate_key] does once the token phase has failed. *)
Lemma validate_key_not_granted (key : string) (scope : option string) (data : pyval) :
  get_access_token self w key scope = Ok (false, data) ->
  validate_key str_other self w key scope
  = (error ← py_get data "error" (VStr "Unknown error");
     Ok (token_failed (skeleton self w key) (py_str str_other error))).
Proof.
  intros Htoken. unfold validate_key. rewrite Htoken. cbn.
  destruct (py_get data "error" (VStr "Unknown error")); reflexivity.
Qed.

End RequestOutcomes.

(** ** get_access_token and test_api_access *)

(** X1.  [get_access_token] reports success exactly when the token
    endpoint answers 200 with a body that parses, and then hands the
    parsed body on. *)
Theorem token_success_iff (self : LookoutAPIValidator) (w : World) (key : string)
    (scope : option string) (data : pyval) :
  get_access_token self w key scope = Ok (true, data) <->
  exists response,
    requests_post w (token_request self key scope) = Ok response /\
    status_code response = 200 /\ json response = Ok data.
Proof.
  split.
  - intros Hret. apply get_access_token_returns in Hret.
    destruct Hret as [[_ Hresponse] | [Habsurd _]]; [exact Hresponse | discriminate].
  - intros (response & Hpost & Hstatus & Hjson).
    exact (get_access_token_payload self w key scope response data Hpost Hstatus Hjson).
Qed.

(** X2.  [test_api_access] reports success exactly when the probe is
    answered 200 with a JSON object, and its payload then has the two
    entries [device_count] (the [count] of the body, or 0) and
    [api_accessible]. *)
Theorem probe_success_iff (str_other : pyval -> string) (self : LookoutAPIValidator)
    (w : World) (access_token : pyval) (data : pyval) :
  test_api_access str_other self w access_token = Ok (true, data) <->
  exists response body,
    requests_get w (probe_request str_other self access_token) = Ok response /\
    status_code response = 200 /\ json response = Ok (VDict body) /\
    data = VDict (<["api_accessible" := VBool true]>
                    {["device_count" := default (VInt 0) (body !! "count")]}).
Proof.
  split.
  - intros Hret. apply test_api_access_returns in Hret.
    destruct Hret as [[_ Hresponse] | [Habsurd _]]; [| discriminate].
    destruct Hresponse as (response & body & Hget & Hstatus & Hjson & ->).
    exists response, body. repeat split; assumption.
  - intros (response & body & Hget & Hstatus & Hjson & ->).
    exact (test_api_access_payload str_other self w access_token response body
             Hget Hstatus Hjson).
Qed.

Lemma token_success_iff_witness :
  get_access_token Sample.validator Sample.granted "app-key" None
  = Ok (true, VDict Sample.token_payload).
Proof.
  apply (token_success_iff Sample.validator Sample.granted "app-key" None).
  exists (Sample.reply 200 "{}" (Ok (VDict Sample.token_payload))).
  repeat split.
Defined.

Lemma probe_success_iff_witness :
  test_api_access Sample.str_other Sample.validator Sample.granted (VStr "tok-1")
  = Ok (true, VDict (<["api_accessible" := VBool true]> {["device_count" := VInt 7]})).
Proof.
  apply (probe_success_iff Sample.str_other Sample.validator Sample.granted (VStr "tok-1")).
  exists (Sample.reply 200 "{}" (Ok (VDict Sample.probe_payload))), Sample.probe_payload.
  repeat split.
Defined.

(** ** validate_key: failures of the transport *)

(** X3.  A [RequestException] of the token request, or of parsing its
    200 body, ends the validation with the one error
    ["Token request failed: Network error"]; no token is recorded. *)
Theorem token_network_error (str_other : pyval -> string) (self : LookoutAPIValidator)
    (w : World) (key : string) (scope : option string) (msg : string) :
  requests_post w (token_request self key scope) = Raise (RequestException msg)
  \/ (exists response,
        requests_post w (token_request self key scope) = Ok response /\
        status_code response = 200 /\
        json response = Raise (RequestException msg)) ->
  exists r,
    validate_key str_other self w key scope = Ok r /\
    r !! "valid" = Some (VBool false) /\
    r !! "token_obtained" = Some (VBool false) /\
    r !! "errors" = Some (VList [VStr "Token request failed: Network error"]) /\
    r !! "token_info" = None /\
    r !! "api_info" = None.
Proof.
  intros Hnet. apply (get_access_token_network self w key scope msg) in Hnet.
  exists (token_failed (skeleton self w key) "Network error").
  split; [| repeat split; reflexivity].
  rewrite (validate_key_not_granted str_other self w key scope _ Hnet). reflexivity.
Qed.

Lemma token_network_error_witness :
  exists r,
    validate_key Sample.str_other Sample.validator Cases.offline "app-key" None = Ok r /\
    r !! "valid" = Some (VBool false) /\
    r !! "token_obtained" = Some (VBool false) /\
    r !! "errors" = Some (VList [VStr "Token request failed: Network error"]) /\
    r !! "token_info" = None /\
    r !! "api_info" = None.
Proof.
  apply (token_network_error Sample.str_other Sample.validator Cases.offline "app-key" None
           "Connection refused").
  left. reflexivity.
Defined.

(** X4.  A [RequestException] of the probe, or of parsing its 200 body,
    ends the validation with the one error
    ["API access failed: Network error"]; the token stays recorded. *)
Theorem probe_network_error (str_other : pyval -> string) (self : LookoutAPIValidator)
    (w : World) (key : string) (scope : option string)
    (payload : gmap string pyval) (access_token : pyval) (msg : string) :
  get_access_token self w key scope = Ok (true, VDict payload) ->
  payload !! "access_token" = Some access_token ->
  requests_get w (probe_request str_other self access_token) = Raise (RequestException msg)
  \/ (exists response,
        requests_get w (probe_request str_other self access_token) = Ok response /\
        status_code response = 200 /\
        json response = Raise (RequestException msg)) ->
  exists r,
    validate_key str_other self w key scope = Ok r /\
    r !! "valid" = Some (VBool false) /\
    r !! "token_obtained" = Some (VBool true) /\
    r !! "api_accessible" = Some (VBool false) /\
    r !! "errors" = Some (VList [VStr "API access failed: Network error"]) /\
    r !! "token_info" = Some (token_info_of payload) /\
    r !! "api_info" = None.
Proof.
  intros Htoken Haccess Hnet.
  apply (test_api_access_network str_other self w access_token msg) in Hnet.
  exists (probe_failed (skeleton self w key) (token_info_of payload) "Network error").
  split; [| repeat split; reflexivity].
  rewrite (validate_key_granted str_other self w key scope payload access_token Htoken Haccess).
  rewrite Hnet. reflexivity.
Qed.

Lemma probe_network_error_witness :
  exists r,
    validate_key Sample.str_other Sample.validator Cases.cut_off "app-key" None = Ok r /\
    r !! "valid" = Some (VBool false) /\
    r !! "token_obtained" = Some (VBool true) /\
    r !! "api_accessible" = Some (VBool false) /\
    r !! "errors" = Some (VList [VStr "API access failed: Network error"]) /\
    r !! "token_info" = Some (token_info_of Sample.token_payload) /\
    r !! "api_info" = None.
Proof.
  apply (probe_network_error Sample.str_other Sample.validator Cases.cut_off "app-key" None
           Sample.token_payload (VStr "tok-1") "Read timed out").
  - reflexivity.
  - reflexivity.
  - left. reflexivity.
Defined.

(** X5.  No [RequestException] ever leaves [validate_key]. *)
Theorem no_request_exception_escapes (str_other : pyval -> string)
    (self : LookoutAPIValidator) (w : World) (key : string) (scope : option string)
    (msg : string) :
  validate_key str_other self w key scope <> Raise (RequestException msg).
Proof.
  destruct (get_access_token self w key scope) as [[[|] data] | e] eqn:Htoken.
  - destruct data as [| | | | | | payload];
      try (unfold validate_key; rewrite Htoken; discriminate).
    destruct (payload !! "access_token") as [access_token |] eqn:Haccess.
    + rewrite (validate_key_granted str_other self w key scope payload access_token
                 Htoken Haccess).
      destruct (test_api_access str_other self w access_token) as [[[|] api] | e] eqn:Hprobe.
      * discriminate.
      * apply test_api_access_returns in Hprobe.
        destruct Hprobe as [[Habsurd _] | [_ Herror]]; [discriminate |].
        destruct (error_info_reason api Herror) as [reason ->]. discriminate.
      * apply test_api_access_raises in Hprobe. destruct Hprobe as [Hclass _].
        intros [= ->]. discriminate Hclass.
    + unfold validate_key. rewrite Htoken. cbn. rewrite Haccess. discriminate.
  - rewrite (validate_key_not_granted str_other self w key scope data Htoken).
    apply get_access_token_returns in Htoken.
    destruct Htoken as [[Habsurd _] | [_ Herror]]; [discriminate |].
    destruct (error_info_reason data Herror) as [reason ->]. discriminate.
  - unfold validate_key. rewrite Htoken. cbn.
    apply get_access_token_raises in Htoken. destruct Htoken as [Hclass _].
    intros [= ->]. discriminate Hclass.
Qed.

(** X6.  Any other exception of [requests.post] leaves [validate_key]
    as it is. *)
Theorem foreign_exception_propagates (str_other : pyval -> string)
    (self : LookoutAPIValidator) (w : World) (key : string) (scope : option string)
    (e : exn) :
  requests_post w (token_request self key scope) = Raise e ->
  is_request_exception e = false ->
  validate_key str_other self w key scope = Raise e.
Proof.
  intros Hpost Hclass. unfold validate_key, get_access_token. rewrite Hpost.
  destruct e; try reflexivity. discriminate Hclass.
Qed.

Lemma foreign_exception_propagates_witness :
  validate_key Sample.str_other Sample.validator Cases.broken "app-key" None
  = Raise (OtherException "Invalid URL").
Proof.
  apply (foreign_exception_propagates Sample.str_other Sample.validator Cases.broken
           "app-key" None); reflexivity.
Defined.

(** ** validate_key: bodies that are no JSON object *)

(** X7.  When the token endpoint answers 200 with JSON that is not an
    object, [validate_key] returns nothing: the [AttributeError] of the
    first [token_data.get] leaves it. *)
Theorem token_body_not_object (str_other : pyval -> string) (self : LookoutAPIValidator)
    (w : World) (key : string) (scope : option string) (body : pyval) :
  get_access_token self w key scope = Ok (true, body) ->
  (forall d, body <> VDict d) ->
  validate_key str_other self w key scope
  = Raise (AttributeError ("'" +:+ type_name body +:+ "' object has no attribute 'get'")).
Proof.
  intros Htoken Hshape. unfold validate_key. rewrite Htoken.
  destruct body as [| | | | | | d]; try reflexivity.
  destruct (Hshape d eq_refl).
Qed.

Lemma token_body_not_object_witness :
  validate_key Sample.str_other Sample.validator Cases.null_token "app-key" None
  = Raise (AttributeError "'NoneType' object has no attribute 'get'").
Proof.
  apply (token_body_not_object Sample.str_other Sample.validator Cases.null_token
           "app-key" None VNone).
  - reflexivity.
  - discriminate.
Defined.

(** X8.  When the probe is answered 200 with JSON that is not an object,
    [validate_key] returns nothing although the token was obtained: the
    [AttributeError] of [data.get] leaves [test_api_access] and
    [validate_key]. *)
Theorem probe_body_not_object (str_other : pyval -> string) (self : LookoutAPIValidator)
    (w : World) (key : string) (scope : option string)
    (payload : gmap string pyval) (access_token : pyval)
    (probed : Response) (body : pyval) :
  get_access_token self w key scope = Ok (true, VDict payload) ->
  payload !! "access_token" = Some access_token ->
  requests_get w (probe_request str_other self access_token) = Ok probed ->
  status_code probed = 200 ->
  json probed = Ok body ->
  (forall d, body <> VDict d) ->
  validate_key str_other self w key scope
  = Raise (AttributeError ("'" +:+ type_name body +:+ "' object has no attribute 'get'")).
Proof.
  intros Htoken Haccess Hget Hstatus Hjson Hshape.
  rewrite (validate_key_granted str_other self w key scope payload access_token Htoken Haccess).
  unfold test_api_access. rewrite Hget. cbn. rewrite Hstatus, Hjson.
  destruct body as [| | | | | | d]; try reflexivity.
  destruct (Hshape d eq_refl).
Qed.

Lemma probe_body_not_object_witness :
  validate_key Sample.str_other Sample.validator Cases.listing "app-key" None
  = Raise (AttributeError "'list' object has no attribute 'get'").
Proof.
  apply (probe_body_not_object Sample.str_other Sample.validator Cases.listing "app-key" None
           Sample.token_payload (VStr "tok-1")
           (Sample.reply 200 "[]" (Ok (VList []))) (VList [])).
  - reflexivity.
  - reflexivity.
  - reflexivity.
  - reflexivity.
  - reflexivity.
  - discriminate.
Defined.

(** ** validate_key: what a result tells *)

(** X9.  A result with [valid] set is backed by the two exchanges: the
    token endpoint answered 200 with a JSON object holding
    [access_token], and the probe sent with that token was answered 200
    with a JSON object. *)
Theorem valid_is_backed (str_other : pyval -> string) (self : LookoutAPIValidator)
    (w : World) (key : string) (scope : option string) (r : gmap string pyval) :
  validate_key str_other self w key scope = Ok r ->
  is_valid r ->
  exists granted payload access_token probed body,
    requests_post w (token_request self key scope) = Ok granted /\
    status_code granted = 200 /\
    json granted = Ok (VDict payload) /\
    payload !! "access_token" = Some access_token /\
    requests_get w (probe_request str_other self access_token) = Ok probed /\
    status_code probed = 200 /\
    json probed = Ok (VDict body) /\
    r = both_passed (skeleton self w key) (token_info_of payload) (api_info_of body).
Proof.
  intros Hr Hvalid.
  destruct (get_access_token self w key scope) as [[[|] data] | e] eqn:Htoken.
  - destruct data as [| | | | | | payload];
      try (unfold validate_key in Hr; rewrite Htoken in Hr; discriminate Hr).
    destruct (payload !! "access_token") as [access_token |] eqn:Haccess;
      [| unfold validate_key in Hr; rewrite Htoken in Hr; cbn in Hr;
         rewrite Haccess in Hr; discriminate Hr].
    rewrite (validate_key_granted str_other self w key scope payload access_token
               Htoken Haccess) in Hr.
    apply get_access_token_returns in Htoken.
    destruct Htoken as [[_ (granted & Hpost & Hgranted & Hjson)] | [Habsurd _]];
      [| discriminate].
    destruct (test_api_access str_other self w access_token) as [[[|] api] | e] eqn:Hprobe.
    + apply test_api_access_returns in Hprobe.
      destruct Hprobe as [[_ (probed & body & Hget & Hprobed & Hbody & ->)] | [Habsurd _]];
        [| discriminate].
      injection Hr as <-. exists granted, payload, access_token, probed, body.
      repeat split; assumption.
    + apply test_api_access_returns in Hprobe.
      destruct Hprobe as [[Habsurd _] | [_ Herror]]; [discriminate |].
      destruct (error_info_reason api Herror) as [reason Hreason].
      rewrite Hreason in Hr. injection Hr as <-. discriminate Hvalid.
    + discriminate Hr.
  - rewrite (validate_key_not_granted str_other self w key scope data Htoken) in Hr.
    apply get_access_token_returns in Htoken.
    destruct Htoken as [[Habsurd _] | [_ Herror]]; [discriminate |].
    destruct (error_info_reason data Herror) as [reason Hreason].
    rewrite Hreason in Hr. injection Hr as <-. discriminate Hvalid.
  - unfold validate_key in Hr. rewrite Htoken in Hr. discriminate Hr.
Qed.

Lemma valid_is_backed_witness :
  exists granted payload access_token probed body,
    requests_post Sample.granted (token_request Sample.validator "app-key" None) = Ok granted /\
    status_code granted = 200 /\
    json granted = Ok (VDict payload) /\
    payload !! "access_token" = Some access_token /\
    requests_get Sample.granted
      (probe_request Sample.str_other Sample.validator access_token) = Ok probed /\
    status_code probed = 200 /\
    json probed = Ok (VDict body) /\
    both_passed (skeleton Sample.validator Sample.granted "app-key")
      (token_info_of Sample.token_payload) (api_info_of Sample.probe_payload)
    = both_passed (skeleton Sample.validator Sample.granted "app-key")
        (token_info_of payload) (api_info_of body).
Proof.
  apply (valid_is_backed Sample.str_other Sample.validator Sample.granted "app-key" None);
    reflexivity.
Defined.

(** X10.  In a returned dictionary the two metadata entries exist
    exactly when their phase succeeded: [token_info] when
    [token_obtained] is true, [api_info] when [valid] is true; the result
    also records the clock reading and the TLS switch of the validator. *)
Theorem metadata_follows_phases (str_other : pyval -> string) (self : LookoutAPIValidator)
    (w : World) (key : string) (scope : option string) (r : gmap string pyval) :
  validate_key str_other self w key scope = Ok r ->
  (is_Some (r !! "token_info") <-> r !! "token_obtained" = Some (VBool true)) /\
  (is_Some (r !! "api_info") <-> is_valid r) /\
  r !! "timestamp" = Some (VStr (now_isoformat w)) /\
  r !! "ssl_verify_skipped" = Some (VBool (skip_ssl_verify self)).
Proof.
  intros Hr. by_exit Hr; unfold is_valid.
  - repeat split; try reflexivity; try discriminate; intros [? Habsurd]; discriminate Habsurd.
  - repeat split; try reflexivity; try discriminate; try (intros _; eexists; reflexivity).
    intros [? Habsurd]; discriminate Habsurd.
  - repeat split; try reflexivity; intros _; eexists; reflexivity.
Qed.

Lemma metadata_follows_phases_witness :
  exists r,
    validate_key Sample.str_other Sample.validator Sample.denied "app-key" None = Ok r /\
    (is_Some (r !! "token_info") <-> r !! "token_obtained" = Some (VBool true)) /\
    (is_Some (r !! "api_info") <-> is_valid r) /\
    r !! "timestamp" = Some (VStr "2024-05-01T10:00:00") /\
    r !! "ssl_verify_skipped" = Some (VBool false).
Proof.
  eexists. split; [reflexivity |].
  apply (metadata_follows_phases Sample.str_other Sample.validator Sample.denied
           "app-key" None).
  reflexivity.
Defined.

(** X11.  When the token phase fails no probe is sent: the outcome of
    [validate_key] is the same whatever [requests.get] would do. *)
Theorem no_probe_without_token (str_other : pyval -> string) (self : LookoutAPIValidator)
    (w : World) (key : string) (scope : option string) (data : pyval)
    (get : Request -> res Response) :
  get_access_token self w key scope = Ok (false, data) ->
  validate_key str_other self (with_get w get) key scope
  = validate_key str_other self w key scope.
Proof.
  intros Htoken.
  rewrite (validate_key_not_granted str_other self w key scope data Htoken).
  rewrite (validate_key_not_granted str_other self (with_get w get) key scope data Htoken).
  reflexivity.
Qed.

Lemma no_probe_without_token_witness :
  validate_key Sample.str_other Sample.validator
    (with_get Sample.refused (fun _ => Raise (OtherException "never called"))) "app-key" None
  = validate_key Sample.str_other Sample.validator Sample.refused "app-key" None.
Proof.
  apply (no_probe_without_token Sample.str_other Sample.validator Sample.refused "app-key" None
           (http_error (Sample.reply 401 "unauthorized" Sample.no_body))).
  reflexivity.
Defined.

(** X12.  An empty scope is no scope: the token request carries a
    [scope] field exactly for a scope string that is not empty, and
    [validate_key] with the empty scope is [validate_key] without one. *)
Theorem empty_scope_is_none (str_other : pyval -> string) (self : LookoutAPIValidator)
    (w : World) (key : string) (scope : option string) :
  req_data (token_request self key scope)
  = ("grant_type", "client_credentials")
      :: match scope with
         | Some (String c s) => [("scope", String c s)]
         | _ => []
         end
  /\ validate_key str_other self w key (Some EmptyString)
     = validate_key str_other self w key None.
Proof.
  split; [| reflexivity].
  destruct scope as [[| c s] |]; reflexivity.
Qed.

(** ** The constructor *)

Lemma append_cons (c : ascii) (s t : string) : String c s +:+ t = String c (s +:+ t).
Proof. reflexivity. Qed.

Lemma append_empty_r (s : string) : s +:+ EmptyString = s.
Proof. induction s as [| c s IH]; [reflexivity |]. rewrite append_cons. f_equal. exact IH. Qed.

Lemma append_assoc (s t u : string) : (s +:+ t) +:+ u = s +:+ (t +:+ u).
Proof. induction s as [| c s IH]; [reflexivity |]. rewrite !append_cons. f_equal. exact IH. Qed.

Lemma rstrip_by_split (p : ascii -> bool) (s : string) :
  exists tail, s = rstrip_by p s +:+ tail /\ forallb p (list_ascii_of_string tail) = true.
Proof.
  induction s as [| c s (tail & Hs & Htail)].
  - exists EmptyString. split; reflexivity.
  - cbn [rstrip_by]. destruct (rstrip_by p s) as [| c' r'] eqn:Hr.
    + destruct (p c) eqn:Hc.
      * exists (String c tail). cbn in Hs. subst s. split; [reflexivity |].
        cbn. rewrite Hc. exact Htail.
      * exists tail. cbn in Hs. subst s. split; [reflexivity | exact Htail].
    + exists tail. split; [| exact Htail]. rewrite append_cons. f_equal. exact Hs.
Qed.

Lemma rstrip_by_last (p : ascii -> bool) (s t : string) (c : ascii) :
  rstrip_by p s = t +:+ String c EmptyString -> p c = false.
Proof.
  revert t. induction s as [| a s IH]; intros t; cbn [rstrip_by].
  - destruct t; discriminate.
  - destruct (rstrip_by p s) as [| b r'] eqn:Hr.
    + destruct (p a) eqn:Ha.
      * destruct t; discriminate.
      * destruct t as [| a' [| ? ?]]; cbn; try discriminate. intros [= ->]. exact Ha.
    + destruct t as [| a' t']; cbn.
      * discriminate.
      * intros [= _ Hrest]. exact (IH t' Hrest).
Qed.

Lemma rstrip_by_snoc (p : ascii -> bool) (s : string) (c : ascii) :
  p c = true -> rstrip_by p (s +:+ String c EmptyString) = rstrip_by p s.
Proof.
  intros Hc. induction s as [| a s IH].
  - change (rstrip_by p (String c EmptyString) = EmptyString). cbn. rewrite Hc. reflexivity.
  - rewrite append_cons. cbn [rstrip_by]. rewrite IH. reflexivity.
Qed.

Lemma rstrip_by_idempotent (p : ascii -> bool) (s : string) :
  rstrip_by p (rstrip_by p s) = rstrip_by p s.
Proof.
  induction s as [| a s IH]; [reflexivity |].
  cbn [rstrip_by]. destruct (rstrip_by p s) as [| b r'] eqn:Hr.
  - destruct (p a) eqn:Ha; [reflexivity |]. cbn. rewrite Ha. reflexivity.
  - cbn [rstrip_by] in *. rewrite IH. reflexivity.
Qed.

(** X13.  The base URL is the given URL without its trailing slashes:
    the URL is the base followed by slashes only, the base does not end
    in a slash, and the two endpoints are the base followed by their
    paths. *)
Theorem base_url_trimmed (url : string) (skip : bool) :
  (exists slashes,
     url = base_url (init url skip) +:+ slashes /\
     forallb (fun c => Ascii.eqb c "/"%char) (list_ascii_of_string slashes) = true) /\
  (forall s, base_url (init url skip) <> s +:+ "/") /\
  token_endpoint (init url skip) = base_url (init url skip) +:+ "/oauth2/token" /\
  test_endpoint (init url skip) = base_url (init url skip) +:+ "/mra/api/v2/devices".
Proof.
  split; [| split; [| split; reflexivity]].
  - apply rstrip_by_split.
  - intros s Hends. apply rstrip_by_last in Hends. discriminate Hends.
Qed.

(** X14.  A trailing slash of the URL makes no difference to the
    validator, and building a validator from the base URL of another
    gives the same one. *)
Theorem trailing_slash_ignored (url : string) (skip : bool) :
  init (url +:+ "/") skip = init url skip /\
  init (base_url (init url skip)) skip = init url skip.
Proof.
  unfold init, rstrip_slash. split.
  - rewrite rstrip_by_snoc; reflexivity.
  - cbn [base_url]. rewrite rstrip_by_idempotent. reflexivity.
Qed.



(** ** The shown key *)

Lemma length_append_string (s t : string) :
  String.length (s +:+ t) = (String.length s + String.length t)%nat.
Proof.
  induction s as [| c s IH]; [reflexivity |].
  rewrite append_cons. cbn [String.length]. rewrite IH. reflexivity.
Qed.

(** X16.  The shown key has at most 23 characters, and of a key longer
    than 20 characters it shows the first 20 only: two such keys with the
    same first 20 characters are shown alike. *)
Theorem shown_key_bounded (key other : string) :
  (String.length (shown_key key) <= 23)%nat /\
  ((20 < String.length key)%nat -> (20 < String.length other)%nat ->
   first_chars 20 key = first_chars 20 other ->
   shown_key key = shown_key other).
Proof.
  unfold shown_key. split.
  - destruct (Nat.ltb_spec 20 (String.length key)) as [Hlong | Hshort]; [| lia].
    rewrite length_append_string, slice_to_first_chars, first_chars_length by lia.
    cbn. lia.
  - intros Hkey Hother Hsame.
    destruct (Nat.ltb_spec 20 (String.length key)); [| lia].
    destruct (Nat.ltb_spec 20 (String.length other)); [| lia].
    rewrite !slice_to_first_chars, Hsame. reflexivity.
Qed.

Lemma shown_key_bounded_witness :
  shown_key "0123456789abcdefghijKLMNOP" = shown_key "0123456789abcdefghij-another-tail".
Proof.
  apply (shown_key_bounded "0123456789abcdefghijKLMNOP" "0123456789abcdefghij-another-tail").
  - cbn. lia.
  - cbn. lia.
  - reflexivity.
Defined.

(** ** load_keys_from_file, further *)

Lemma lstrip_length (s : string) : (String.length (lstrip s) <= String.length s)%nat.
Proof.
  induction s as [| c s IH]; cbn; [lia |]. destruct (isspace c); cbn; lia.
Qed.

Lemma rstrip_by_length (p : ascii -> bool) (s : string) :
  (String.length (rstrip_by p s) <= String.length s)%nat.
Proof.
  induction s as [| c s IH]; cbn; [lia |].
  destruct (rstrip_by p s); [destruct (p c) |]; cbn in *; lia.
Qed.

Lemma strip_fixed_head (c : ascii) (r : string) :
  strip (String c r) = String c r -> isspace c = false.
Proof.
  intros Hfixed. destruct (isspace c) eqn:Hc; [| reflexivity].
  assert (String.length (strip (String c r)) <= String.length r)%nat as Hlen.
  { unfold strip. cbn [lstrip]. rewrite Hc.
    etransitivity; [apply rstrip_by_length | apply lstrip_length]. }
  rewrite Hfixed in Hlen. cbn in Hlen. lia.
Qed.

Lemma strip_idempotent (s : string) : strip (strip s) = strip s.
Proof.
  unfold strip. destruct (is_blank s) eqn:Hb.
  - rewrite (lstrip_blank _ Hb). reflexivity.
  - destruct (lstrip_not_blank _ Hb) as (c & r & -> & Hc).
    destruct (rstrip_by_head isspace c r Hc) as [r' Hr']. rewrite Hr'.
    cbn [lstrip]. rewrite Hc, <- Hr'. apply rstrip_by_idempotent.
Qed.

Lemma strip_line (key : string) :
  strip key = key -> strip (key +:+ String "010"%char EmptyString) = key.
Proof.
  intros Hfixed. destruct key as [| c r]; [reflexivity |].
  pose proof (strip_fixed_head c r Hfixed) as Hc.
  unfold strip in *. rewrite append_cons. cbn [lstrip] in *. rewrite Hc in *.
  rewrite <- append_cons, rstrip_by_snoc by reflexivity. exact Hfixed.
Qed.

Lemma readlines_from_line (key : string) :
  one_line key = true ->
  forall cur rest,
    readlines_from cur (key +:+ String "010"%char rest)
    = (cur +:+ (key +:+ String "010"%char EmptyString)) :: readlines_from EmptyString rest.
Proof.
  unfold one_line. induction key as [| c key IH]; intros Hline cur rest.
  - reflexivity.
  - cbn in Hline. apply andb_prop in Hline as [Hc Hkey].
    apply andb_prop in Hc as [Hlf Hcr].
    rewrite !append_cons. cbn [readlines_from].
    destruct (Ascii.eqb c "010"%char); [discriminate |].
    destruct (Ascii.eqb c "013"%char); [discriminate |].
    rewrite (IH Hkey). f_equal.
    rewrite append_assoc. reflexivity.
Qed.

Lemma readlines_unlines (keys : list string) :
  Forall (fun key => one_line key = true) keys ->
  readlines (unlines keys) = map (fun key => key +:+ String "010"%char EmptyString) keys.
Proof.
  unfold readlines. induction 1 as [| key keys Hkey _ IH]; [reflexivity |].
  cbn [unlines foldr map]. rewrite (readlines_from_line key Hkey). f_equal. exact IH.
Qed.

Lemma keys_of_lines_In (f : list string) (key : string) :
  In key (keys_of_lines f) ->
  exists line, In line f /\ key = strip line /\
    str_truthy (strip line) = true /\ startswith (strip line) "#" = false.
Proof.
  unfold keys_of_lines. rewrite in_flat_map. intros (line & Hline & Hkey).
  destruct (str_truthy (strip line)) eqn:Htruthy; [| destruct Hkey].
  destruct (startswith (strip line) "#") eqn:Hhash; [destruct Hkey |].
  destruct Hkey as [<- | []]. exists line. repeat split; assumption.
Qed.

(** X17.  Every key [load_keys_from_file] returns is not empty, does
    not start with [#] and has no whitespace at either end. *)
Theorem loaded_keys_are_clean (fs : FileSystem) (filename key : string) :
  In key (load_keys_from_file fs filename) ->
  key <> EmptyString /\ startswith key "#" = false /\ strip key = key.
Proof.
  unfold load_keys_from_file.
  destruct (read_text fs filename) as [content | e]; [| intros []].
  intros Hkey. apply keys_of_lines_In in Hkey.
  destruct Hkey as (line & _ & -> & Htruthy & Hhash).
  split; [| split; [exact Hhash | apply strip_idempotent]].
  intros Hempty. rewrite Hempty in Htruthy. discriminate Htruthy.
Qed.

Lemma loaded_keys_are_clean_witness :
  "beta" <> EmptyString /\ startswith "beta" "#" = false /\ strip "beta" = "beta".
Proof.
  apply (loaded_keys_are_clean (Sample.disk Sample.key_file) "keys.txt" "beta").
  cbn. right. left. reflexivity.
Defined.

(** X18.  A file that holds clean keys, one per line and each line
    ended by LF, loads as those keys: nothing is lost, added or
    reordered. *)
Theorem clean_keys_round_trip (fs : FileSystem) (filename : string) (keys : list string) :
  Forall (fun key => clean_key key = true /\ one_line key = true) keys ->
  read_text fs filename = Ok (unlines keys) ->
  load_keys_from_file fs filename = keys.
Proof.
  intros Hkeys Hread. unfold load_keys_from_file. rewrite Hread.
  rewrite readlines_unlines by (eapply Forall_impl; [exact Hkeys | intros ? [_ ?]; assumption]).
  clear Hread. induction Hkeys as [| key keys [Hclean _] _ IH]; [reflexivity |].
  unfold clean_key in Hclean.
  apply andb_prop in Hclean as [Hclean Hfixed]. apply andb_prop in Hclean as [Htruthy Hhash].
  apply bool_decide_eq_true in Hfixed.
  cbn [map keys_of_lines flat_map]. rewrite (strip_line key Hfixed), Htruthy, Hhash.
  cbn. f_equal. exact IH.
Qed.

Lemma clean_keys_round_trip_witness :
  load_keys_from_file (Sample.disk Cases.two_keys) "keys.txt" = ["alpha"; "beta"].
Proof.
  apply (clean_keys_round_trip (Sample.disk Cases.two_keys) "keys.txt" ["alpha"; "beta"]).
  - repeat constructor.
  - reflexivity.
Defined.

(** ** main, further *)

Section BatchRuns.

Variable str_other : pyval -> string.

Lemma validate_each_app (self : LookoutAPIValidator) (world : nat -> World)
    (scope : option string) (before after : list string) :
  forall i,
    validate_each str_other self world scope i (before ++ after)
    = (first ← validate_each str_other self world scope i before;
       second ← validate_each str_other self world scope (i + length before) after;
       mret (first ++ second)).
Proof.
  induction before as [| key before IH]; intros i.
  - cbn. rewrite Nat.add_0_r.
    destruct (validate_each str_other self world scope i after); reflexivity.
  - cbn. destruct (validate_key str_other self (world i) key scope) as [r | e]; [| reflexivity].
    cbn. rewrite IH. replace (S i + length before)%nat with (i + S (length before))%nat by lia.
    destruct (validate_each str_other self world scope (S i) before) as [rs | e];
      [| reflexivity].
    cbn. destruct (validate_each str_other self world scope _ after); reflexivity.
Qed.

Lemma run_outcome (fs : FileSystem) (world : nat -> World) (args : Args)
    (keys : list string) :
  exit_code (run str_other fs world args keys) = 0
  \/ exit_code (run str_other fs world args keys) = 1.
Proof.
  unfold run.
  destruct (validate_each str_other _ world (args_scope args) 1%nat keys) as [results | e];
    [| right; reflexivity].
  cbn. rewrite write_attempt. cbn.
  destruct (all_valid results) as [[|] | e]; cbn; auto.
Qed.

End BatchRuns.

(** X19.  When the named key file cannot be read, [main] ends with exit
    code 1 whatever the network would answer: no key is validated. *)
Theorem unreadable_file_exits (str_other : pyval -> string) (fs : FileSystem)
    (world : nat -> World) (args : Args) (filename : string) (e : exn) :
  args_file args = Some filename ->
  filename <> EmptyString ->
  read_text fs filename = Raise e ->
  main str_other fs world args = Ok 1.
Proof.
  intros Hfile Hname Hread. unfold main. rewrite Hfile. cbn.
  destruct filename as [| c name]; [contradiction |]. cbn.
  rewrite (load_keys_unreadable fs _ e Hread). reflexivity.
Qed.

Lemma unreadable_file_exits_witness :
  main Sample.str_other Cases.empty_disk (fun _ => Sample.granted)
    (Sample.cli (Some "keys.txt") None) = Ok 1.
Proof.
  apply (unreadable_file_exits Sample.str_other Cases.empty_disk (fun _ => Sample.granted)
           (Sample.cli (Some "keys.txt") None) "keys.txt" (FileNotFoundError "keys.txt")).
  - reflexivity.
  - discriminate.
  - reflexivity.
Defined.

(** X20.  A batch that runs to its end has one result per key, in the
    order of the keys: the result at position [j] is what [validate_key]
    returns for the key at position [j], in the world of that turn. *)
Theorem batch_in_order (str_other : pyval -> string) (self : LookoutAPIValidator)
    (world : nat -> World) (scope : option string) (keys : list string) :
  forall (i : nat) (results : list (gmap string pyval)),
    validate_each str_other self world scope i keys = Ok results ->
    length results = length keys /\
    forall (j : nat) (key : string),
      keys !! j = Some key ->
      exists r,
        results !! j = Some r /\
        validate_key str_other self (world (i + j)%nat) key scope = Ok r.
Proof.
  induction keys as [| key keys IH]; intros i results; cbn.
  - intros [= <-]. split; [reflexivity |]. intros j k Hj. discriminate Hj.
  - destruct (validate_key str_other self (world i) key scope) as [r | e] eqn:Hr;
      [| discriminate]. cbn.
    destruct (validate_each str_other self world scope (S i) keys) as [rs | e] eqn:Hrs;
      [| discriminate]. cbn.
    intros [= <-]. destruct (IH (S i) rs Hrs) as [Hlen Hat].
    split; [cbn; f_equal; exact Hlen |].
    intros [| j] k Hj; cbn in Hj.
    + injection Hj as <-. exists r. rewrite Nat.add_0_r. split; [reflexivity | exact Hr].
    + destruct (Hat j k Hj) as (r' & Hr' & Hvalidated).
      exists r'. replace (i + S j)%nat with (S i + j)%nat by lia.
      split; [exact Hr' | exact Hvalidated].
Qed.

Lemma batch_in_order_witness :
  exists results,
    validate_each Sample.str_other Sample.validator Cases.second_refused None 1
      ["alpha"; "beta"] = Ok results /\
    length results = 2%nat /\
    forall (j : nat) (key : string),
      ["alpha"; "beta"] !! j = Some key ->
      exists r,
        results !! j = Some r /\
        validate_key Sample.str_other Sample.validator (Cases.second_refused (1 + j)%nat)
          key None = Ok r.
Proof.
  eexists. split; [reflexivity |].
  apply (batch_in_order Sample.str_other Sample.validator Cases.second_refused None
           ["alpha"; "beta"] 1%nat).
  reflexivity.
Defined.

(** X21.  An exception that leaves [validate_key] for one key ends the
    whole run: the keys after it are not validated, [main] is left by the
    same exception and the exit status is 1. *)
Theorem exception_ends_batch (str_other : pyval -> string) (fs : FileSystem)
    (world : nat -> World) (args : Args) (before after : list string) (key : string)
    (done : list (gmap string pyval)) (e : exn) :
  resolved_keys fs args = before ++ key :: after ->
  validate_each str_other (init (args_url args) (args_skip_ssl_verify args)) world
    (args_scope args) 1%nat before = Ok done ->
  validate_key str_other (init (args_url args) (args_skip_ssl_verify args))
    (world (1 + length before)%nat) key (args_scope args) = Raise e ->
  main str_other fs world args = Raise e /\
  exit_code (main str_other fs world args) = 1.
Proof.
  intros Hkeys Hdone Hraise.
  assert (run str_other fs world args (before ++ key :: after) = Raise e) as Hrun.
  { change (1 + length before)%nat with (S (length before)) in Hraise.
    unfold run. rewrite validate_each_app, Hdone. cbn. rewrite Hraise. reflexivity. }
  assert (main str_other fs world args = Raise e) as ->; [| split; reflexivity].
  rewrite main_resolved, Hkeys. destruct before; exact Hrun.
Qed.

Lemma exception_ends_batch_witness :
  main Sample.str_other (Sample.disk Cases.two_keys) Cases.second_tokenless
    (Sample.cli (Some "keys.txt") None) = Raise (KeyError "access_token") /\
  exit_code (main Sample.str_other (Sample.disk Cases.two_keys) Cases.second_tokenless
               (Sample.cli (Some "keys.txt") None)) = 1.
Proof.
  eapply (exception_ends_batch Sample.str_other (Sample.disk Cases.two_keys)
            Cases.second_tokenless (Sample.cli (Some "keys.txt") None)
            ["alpha"] [] "beta").
  - reflexivity.
  - reflexivity.
  - reflexivity.
Defined.

(** X22.  Once the command line is parsed, the exit status of a run is
    0 or 1: whatever the files and the network do, [main] ends with one
    of the two codes or is left by an exception, which gives status 1. *)
Theorem exit_code_binary (str_other : pyval -> string) (fs : FileSystem)
    (world : nat -> World) (args : Args) :
  exit_code (main str_other fs world args) = 0 \/ exit_code (main str_other fs world args) = 1.
Proof.
  rewrite main_resolved. destruct (resolved_keys fs args); [right; reflexivity |].
  apply run_outcome.
Qed.

(** X23.  On the results of a batch [valid_count] returns a number
    between 0 and the number of results; it is the number of results
    exactly when all are valid (the run then ends with exit code 0) and 0
    exactly when none is. *)
Theorem valid_count_summary (str_other : pyval -> string) (self : LookoutAPIValidator)
    (world : nat -> World) (scope : option string) (i : nat) (keys : list string)
    (results : list (gmap string pyval)) :
  validate_each str_other self world scope i keys = Ok results ->
  exists n,
    valid_count results = Ok n /\
    0 <= n <= Z.of_nat (length results) /\
    (n = Z.of_nat (length results) <-> Forall is_valid results) /\
    (n = 0 <-> Forall (fun r => ~ is_valid r) results).
Proof.
  intros Hresults. apply validate_each_valid_flags in Hresults.
  induction Hresults as [| r rs [b Hb] _ (n & Hn & Hrange & Hall & Hnone)].
  - exists 0. cbn. repeat split; try lia; constructor.
  - cbn [valid_count]. cbn. rewrite Hb. cbn. rewrite Hn. cbn.
    assert (is_valid r <-> b = true) as Hvalid.
    { unfold is_valid. rewrite Hb. split; [intros [= ->]; reflexivity | intros ->; reflexivity]. }
    destruct b.
    + exists (1 + n). split; [reflexivity |]. split; [lia |]. split; split.
      * intros Hcount. constructor; [apply Hvalid; reflexivity | apply Hall; lia].
      * intros Hforall. inversion Hforall as [| ? ? _ Hrest]; subst.
        apply Hall in Hrest. lia.
      * lia.
      * intros Hforall. inversion Hforall as [| ? ? Hhead _]; subst.
        destruct Hhead. apply Hvalid. reflexivity.
    + exists n. split; [reflexivity |]. split; [lia |]. split; split.
      * lia.
      * intros Hforall. inversion Hforall as [| ? ? Hhead _]; subst.
        apply Hvalid in Hhead. discriminate Hhead.
      * intros Hcount. constructor; [| apply Hnone; exact Hcount].
        intros Hhead. apply Hvalid in Hhead. discriminate Hhead.
      * intros Hforall. inversion Hforall as [| ? ? _ Hrest]; subst.
        apply Hnone. exact Hrest.
Qed.

Lemma valid_count_summary_witness :
  exists results n,
    validate_each Sample.str_other Sample.validator Cases.second_refused None 1
      ["alpha"; "beta"] = Ok results /\
    valid_count results = Ok n /\
    0 <= n <= Z.of_nat (length results).
Proof.
  destruct (valid_count_summary Sample.str_other Sample.validator Cases.second_refused None 1
              ["alpha"; "beta"] _ eq_refl) as (n & Hn & Hrange & _).
  eexists. exists n. split; [reflexivity |]. split; [exact Hn | exact Hrange].
Defined.

(** X24.  With one key on the command line and no key file, the run
    validates that key once, in the first world, and its exit status is 0
    exactly when [validate_key] returns a valid result; the positional
    key goes before the one of [--key]. *)
Theorem single_key_run (str_other : pyval -> string) (fs : FileSystem)
    (world : nat -> World) (args : Args) (key : string) :
  opt_truthy (args_file args) = false ->
  opt_or (args_key args) (args_key_arg args) = Some key ->
  key <> EmptyString ->
  (opt_truthy (args_key args) = true -> args_key args = Some key) /\
  (exit_code (main str_other fs world args) = 0 <->
   exists r,
     validate_key str_other (init (args_url args) (args_skip_ssl_verify args))
       (world 1%nat) key (args_scope args) = Ok r /\
     is_valid r).
Proof.
  intros Hfile Hkey Hname. split.
  - unfold opt_or in Hkey. intros Hgiven. rewrite Hgiven in Hkey. exact Hkey.
  - assert (resolved_keys fs args = [key]) as Hkeys.
    { unfold resolved_keys. rewrite Hfile, Hkey. destruct key; [contradiction | reflexivity]. }
    rewrite main_resolved, Hkeys.
    destruct (validate_key str_other (init (args_url args) (args_skip_ssl_verify args))
                (world 1%nat) key (args_scope args)) as [r | e] eqn:Hr.
    + assert (validate_each str_other (init (args_url args) (args_skip_ssl_verify args))
                world (args_scope args) 1%nat [key] = Ok [r]) as Hresults
        by (cbn; rewrite Hr; reflexivity).
      destruct (run_completed str_other fs world args _ _ Hresults) as (code & -> & Hcode).
      cbn [exit_code]. rewrite Hcode. split.
      * intros Hall. inversion Hall; subst. exists r. split; [reflexivity | assumption].
      * intros (r' & [= <-] & Hvalid). constructor; [exact Hvalid | constructor].
    + unfold run. cbn. rewrite Hr. cbn. split; [discriminate |].
      intros (r' & Habsurd & _). discriminate Habsurd.
Qed.

Lemma single_key_run_witness :
  exit_code (main Sample.str_other Cases.empty_disk (fun _ => Sample.granted)
               (Sample.cli None (Some "app-key"))) = 0.
Proof.
  apply (single_key_run Sample.str_other Cases.empty_disk (fun _ => Sample.granted)
           (Sample.cli None (Some "app-key")) "app-key").
  - reflexivity.
  - reflexivity.
  - discriminate.
  - eexists. split; reflexivity.
Defined.

(** X25.  A key file that holds blank lines and comment lines only
    gives no key, and [main] ends with exit code 1 whatever the network
    would answer. *)
Theorem comments_only_file_exits (str_other : pyval -> string) (fs : FileSystem)
    (world : nat -> World) (args : Args) (filename content : string) :
  args_file args = Some filename ->
  filename <> EmptyString ->
  read_text fs filename = Ok content ->
  Forall (fun line => is_blank line = true \/ is_comment line = true) (readlines content) ->
  load_keys_from_file fs filename = [] /\
  main str_other fs world args = Ok 1.
Proof.
  intros Hfile Hname Hread Hlines.
  assert (load_keys_from_file fs filename = []) as Hnone.
  { unfold load_keys_from_file. rewrite Hread, keys_of_lines_filter.
    induction Hlines as [| line f Hline _ IH]; [reflexivity |].
    cbn. destruct Hline as [-> | ->]; cbn; rewrite ?andb_false_r; exact IH. }
  split; [exact Hnone |].
  unfold main. rewrite Hfile. destruct filename as [| c name]; [contradiction |].
  cbn. rewrite Hnone. reflexivity.
Qed.

Lemma comments_only_file_exits_witness :
  load_keys_from_file (Sample.disk Sample.indented_comment) "keys.txt" = [] /\
  main Sample.str_other (Sample.disk Sample.indented_comment) (fun _ => Sample.granted)
    (Sample.cli (Some "keys.txt") None) = Ok 1.
Proof.
  apply (comments_only_file_exits Sample.str_other (Sample.disk Sample.indented_comment)
           (fun _ => Sample.granted) (Sample.cli (Some "keys.txt") None)
           "keys.txt" Sample.indented_comment).
  - reflexivity.
  - discriminate.
  - reflexivity.
  - constructor; [right; reflexivity | constructor].
Defined.
